(** * Streamflow Explorer dashboard (app.py): model and properties

    The program is a Dash application.  At start-up it loads a station table
    (a pandas DataFrame) and a results dictionary, adds the categorical column
    ['NSE'] to the table, builds a map figure with plotly express, and
    registers one callback, [update_plot], that turns a map click into either
    a placeholder, a PNG chart or an error text.

    The development embeds these three pieces as functions:
    - [add_NSE_category]  lines 29-32 of app.py,
    - [fig]               lines 38-51,
    - [update_plot]       lines 94-127.

    Library values are modelled as the code sees them: float64 numbers are
    IEEE-754 binary64 values ([spec_float], comparisons by [SFltb]/[SFleb]),
    a DataFrame is a row count with named columns, an xarray variable is an
    n-dimensional array with named dimensions, pyplot is a registry of open
    figures threaded through the handler, and Python exceptions are an
    explicit result type. *)

From Stdlib Require Import ZArith List String Ascii Bool Lia Permutation.
From Stdlib Require Import Floats.SpecFloat.
From Stdlib Require Import Strings.Byte.
From Stdlib Require Import Numbers.DecimalString.
Import ListNotations.

Set Implicit Arguments.

#[local] Open Scope string_scope.
#[local] Open Scope list_scope.

(* ------------------------------------------------------------------ *)
(** * Python exceptions and fallible computations *)

Module Py.

Inductive exn_class :=
| KeyError | IndexError | TypeError | ValueError | OtherError.

(** An exception: its class and the place that raised it.  The text that
    [str(e)] gives is not fixed here, see [Externals.exn_text]. *)
Record exn := Exn { exn_cls : exn_class; exn_origin : string }.

Inductive result (A : Type) :=
| Ok (a : A)
| Raise (e : exn).
Arguments Ok {A} a.
Arguments Raise {A} e.

Definition bind {A B} (m : result A) (k : A -> result B) : result B :=
  match m with
  | Ok a => k a
  | Raise e => Raise e
  end.

Fixpoint mapM {A B} (f : A -> result B) (l : list A) : result (list B) :=
  match l with
  | [] => Ok []
  | x :: t =>
      match f x with
      | Raise e => Raise e
      | Ok y => match mapM f t with
                | Raise e => Raise e
                | Ok ys => Ok (y :: ys)
                end
      end
  end.

End Py.
Import Py.

Declare Scope py_scope.
Delimit Scope py_scope with py.
Notation "x <- m ;; k" := (Py.bind m (fun x => k))
  (at level 61, m at next level, right associativity) : py_scope.
#[local] Open Scope py_scope.

(* ------------------------------------------------------------------ *)
(** * float64 *)

Module Float64.

Definition prec : Z := 53.
Definition emax : Z := 1024.

(** The literals 0.5, 0.7 and 0.8 as Python reads them: the binary64
    numbers nearest to the decimal fractions. *)
Definition c05 : spec_float := S754_finite false 4503599627370496 (-53).
Definition c07 : spec_float := S754_finite false 6305039478318694 (-53).
Definition c08 : spec_float := S754_finite false 7205759403792794 (-53).

Definition of_Z (z : Z) : spec_float := binary_normalize prec emax z 0 false.

(** [x > y] and [x <= y]; both are false as soon as one side is NaN.
    [SFcompare] orders finite values by sign, exponent and mantissa, which
    is the order of the numbers on the normalised representations that
    binary64 values have. *)
Definition gt (x y : spec_float) : bool := SFltb y x.
Definition le (x y : spec_float) : bool := SFleb x y.

Definition is_zero (x : spec_float) : bool :=
  match x with S754_zero _ => true | _ => false end.

(** The integer a float is equal to, when there is one ([1.0 == 1]). *)
Definition to_Z_exact (x : spec_float) : option Z :=
  match x with
  | S754_zero _ => Some 0%Z
  | S754_finite s m (Zneg p) =>
      if (Z.pos m mod 2 ^ Z.pos p =? 0)%Z
      then Some (cond_Zopp s (Z.pos m / 2 ^ Z.pos p))
      else None
  | S754_finite s m e => Some (cond_Zopp s (Z.pos m * 2 ^ e))
  | _ => None
  end.

End Float64.

(* ------------------------------------------------------------------ *)
(** * pandas: the part of DataFrame that lines 29-32 and 105-113 use *)

Module Pandas.

(** One cell of a column or of an array. [CDate] is a datetime64 value,
    counted in nanoseconds. *)
Inductive cell :=
| CFloat (x : spec_float)
| CInt (z : Z)
| CStr (s : string)
| CDate (ns : Z).

Definition NaN : cell := CFloat S754_nan.

(** A DataFrame: the length of its index and its columns in order. *)
Record DataFrame := Frame {
  nrows : nat;
  columns : list (string * list cell)
}.

Definition column_names (df : DataFrame) : list string :=
  map fst (columns df).

Fixpoint lookup {A} (name : string) (cols : list (string * A)) : option A :=
  match cols with
  | [] => None
  | (n, c) :: t => if String.eqb n name then Some c else lookup name t
  end.

Fixpoint distinct (l : list string) : bool :=
  match l with
  | [] => true
  | x :: t => negb (existsb (String.eqb x) t) && distinct t
  end.

(** Every column is as long as the index and no name occurs twice. *)
Definition wf_frame (df : DataFrame) : bool :=
  forallb (fun c => Nat.eqb (List.length (snd c)) (nrows df)) (columns df)
  && distinct (column_names df).

(** [df[name]] *)
Definition getitem (df : DataFrame) (name : string) : result (list cell) :=
  match lookup name (columns df) with
  | Some c => Ok c
  | None => Raise (Exn KeyError "DataFrame.__getitem__")
  end.

Fixpoint replace_column (name : string) (c : list cell)
    (cols : list (string * list cell)) : list (string * list cell) :=
  match cols with
  | [] => [(name, c)]
  | (n, old) :: t =>
      if String.eqb n name then (n, c) :: t
      else (n, old) :: replace_column name c t
  end.

(** [df[name] = c]: an existing column is replaced where it stands, a new
    one goes last. *)
Definition set_column (df : DataFrame) (name : string) (c : list cell)
    : DataFrame :=
  Frame (nrows df) (replace_column name c (columns df)).

(** [df[name] = v] with a scalar [v]. *)
Definition setitem_scalar (df : DataFrame) (name : string) (v : cell)
    : DataFrame :=
  set_column df name (repeat v (nrows df)).

(** The float64 value a numeric cell is compared as. *)
Definition as_float (c : cell) : option spec_float :=
  match c with
  | CFloat x => Some x
  | CInt z => Some (Float64.of_Z z)
  | _ => None
  end.

Definition compare_scalar (op : spec_float -> spec_float -> bool)
    (col : list cell) (y : spec_float) : result (list bool) :=
  mapM (fun c => match as_float c with
                 | Some x => Ok (op x y)
                 | None => Raise (Exn TypeError "Series comparison")
                 end) col.

(** [col > y] and [col <= y] *)
Definition series_gt := compare_scalar Float64.gt.
Definition series_le := compare_scalar Float64.le.

(** [m1 & m2] on two boolean Series over the same index. *)
Fixpoint series_and (m1 m2 : list bool) : list bool :=
  match m1, m2 with
  | a :: t1, b :: t2 => (a && b) :: series_and t1 t2
  | _, _ => []
  end.

Fixpoint where_mask (mask : list bool) (v : cell) (old : list cell)
    : list cell :=
  match mask, old with
  | b :: tm, x :: tx => (if b then v else x) :: where_mask tm v tx
  | _, _ => []
  end.

(** [df.loc[mask, name] = v]: the rows where the mask holds get [v]; a
    column that does not exist yet is created, NaN in the other rows. *)
Definition loc_set (df : DataFrame) (mask : list bool) (name : string)
    (v : cell) : result DataFrame :=
  if negb (Nat.eqb (List.length mask) (nrows df))
  then Raise (Exn IndexError "DataFrame.loc.__setitem__")
  else
    let old := match lookup name (columns df) with
               | Some c => c
               | None => repeat NaN (nrows df)
               end in
    Ok (set_column df name (where_mask mask v old)).

Definition cell_at (df : DataFrame) (name : string) (i : nat) : option cell :=
  match lookup name (columns df) with
  | Some c => nth_error c i
  | None => None
  end.

(** A column of numbers (float64 or int64). *)
Definition numeric (col : list cell) : bool :=
  forallb (fun c => match as_float c with Some _ => true | None => false end)
          col.

End Pandas.
Import Pandas.

(* ------------------------------------------------------------------ *)
(** * Dataset preparation (app.py, lines 29-32) *)

Definition NOT_SATISFACTORY : string := "Not Satisfactory: NSE < 0.5".
Definition SATISFACTORY : string := "Satisfactory: NSE = 0.5-0.7".
Definition GOOD : string := "Good: NSE = 0.7-0.8".
Definition VERY_GOOD : string := "Very Good: NSE > 0.8".

Definition labels : list string :=
  [NOT_SATISFACTORY; SATISFACTORY; GOOD; VERY_GOOD].

Definition SCORE : string := "casr_daymet_era5_NSE".

(** The four statements, in order; every [merged_df['casr_daymet_era5_NSE']]
    is a fresh column lookup, as in the source. *)
Definition add_NSE_category (merged_df : DataFrame) : result DataFrame :=
  let df0 := setitem_scalar merged_df "NSE" (CStr NOT_SATISFACTORY) in
  a <- getitem df0 SCORE ;; ma <- series_gt a Float64.c05 ;;
  b <- getitem df0 SCORE ;; mb <- series_le b Float64.c07 ;;
  df1 <- loc_set df0 (series_and ma mb) "NSE" (CStr SATISFACTORY) ;;
  a <- getitem df1 SCORE ;; ma <- series_gt a Float64.c07 ;;
  b <- getitem df1 SCORE ;; mb <- series_le b Float64.c08 ;;
  df2 <- loc_set df1 (series_and ma mb) "NSE" (CStr GOOD) ;;
  a <- getitem df2 SCORE ;; ma <- series_gt a Float64.c08 ;;
  loc_set df2 ma "NSE" (CStr VERY_GOOD).

(** What the four statements do to one row: the label of a row with score
    [s] after the default and the three overwrites. *)
Definition row_label (s : spec_float) : string :=
  let l0 := NOT_SATISFACTORY in
  let l1 := if Float64.gt s Float64.c05 && Float64.le s Float64.c07
            then SATISFACTORY else l0 in
  let l2 := if Float64.gt s Float64.c07 && Float64.le s Float64.c08
            then GOOD else l1 in
  if Float64.gt s Float64.c08 then VERY_GOOD else l2.

(** Sample tables. *)
Definition sample_scores : list cell :=
  [CFloat Float64.c05; CFloat Float64.c07; CFloat Float64.c08;
   CFloat S754_nan; CInt 1;
   CFloat (S754_finite true 4503599627370496 (-52))].

Definition sample_table : DataFrame :=
  Frame 6 [("gauge_id",
            [CStr "a"; CStr "b"; CStr "c"; CStr "d"; CStr "e"; CStr "f"]);
           (SCORE, sample_scores)].

(** A table that already has a column called NSE. *)
Definition relabelled_table : DataFrame :=
  Frame 1 [("NSE", [CFloat Float64.c08]); (SCORE, [CFloat Float64.c05])].

(* ------------------------------------------------------------------ *)
(** * plotly express: the part of [px.scatter_mapbox] that lines 38-51 use *)

Module Plotly.

(** A point of a trace: its position and the hover columns of its row. *)
Record point := Point {
  lat : cell;
  lon : cell;
  customdata : list cell
}.

(** The colour of the markers of a trace: one fixed colour for a trace of a
    discrete colour column, one value per point on a colour axis for a
    numeric colour column. *)
Inductive marker_color :=
| Fixed (c : string)
| ColourAxis (values : list cell).

Record trace := Trace {
  name : option cell;
  color : marker_color;
  size : option nat;
  points : list point
}.

Record Figure := MkFigure {
  data : list trace;
  zoom : nat
}.

Definition sf_eqb (x y : spec_float) : bool :=
  match x, y with
  | S754_zero a, S754_zero b => Bool.eqb a b
  | S754_infinity a, S754_infinity b => Bool.eqb a b
  | S754_nan, S754_nan => true
  | S754_finite a m e, S754_finite b n f =>
      Bool.eqb a b && Pos.eqb m n && Z.eqb e f
  | _, _ => false
  end.

Definition cell_eqb (a b : cell) : bool :=
  match a, b with
  | CFloat x, CFloat y => sf_eqb x y
  | CInt x, CInt y => Z.eqb x y
  | CStr x, CStr y => String.eqb x y
  | CDate x, CDate y => Z.eqb x y
  | _, _ => false
  end.

(** The rows of the frame as plotly reads them: colour value and point. *)
Definition px_rows (df : DataFrame) (lat_c lon_c color_c : list cell)
    (hover : list (list cell)) : list (cell * point) :=
  map (fun i => (nth i color_c NaN,
                 Point (nth i lat_c NaN) (nth i lon_c NaN)
                       (map (fun c => nth i c NaN) hover)))
      (seq 0 (nrows df)).

(** Grouping by colour value, groups in order of first appearance and rows
    in their order within a group. *)
Fixpoint add_to_group (k : cell) (p : point) (gs : list (cell * list point))
    : list (cell * list point) :=
  match gs with
  | [] => [(k, [p])]
  | (k', ps) :: t =>
      if cell_eqb k' k then (k', ps ++ [p]) :: t
      else (k', ps) :: add_to_group k p t
  end.

Definition group_rows (rows : list (cell * point)) : list (cell * list point) :=
  fold_left (fun gs r => add_to_group (fst r) (snd r) gs) rows [].

Fixpoint val_lookup (k : cell) (val_map : list (cell * string))
    : option string :=
  match val_map with
  | [] => None
  | (k', c) :: t => if cell_eqb k' k then Some c else val_lookup k t
  end.

(** One trace per group.  A value without an entry in the value map gets
    the next colour of the sequence, [sequence[len(val_map) % len(sequence)]],
    and is entered into the map. *)
Fixpoint discrete_traces (sequence : list string)
    (val_map : list (cell * string)) (gs : list (cell * list point))
    : result (list trace) :=
  match gs with
  | [] => Ok []
  | (k, ps) :: t =>
      match val_lookup k val_map with
      | Some c =>
          rest <- discrete_traces sequence val_map t ;;
          Ok (Trace (Some k) (Fixed c) None ps :: rest)
      | None =>
          match sequence with
          | [] => Raise (Exn OtherError "ZeroDivisionError")
          | c0 :: _ =>
              let c := nth (List.length val_map mod List.length sequence)
                           sequence c0 in
              rest <- discrete_traces sequence (val_map ++ [(k, c)]) t ;;
              Ok (Trace (Some k) (Fixed c) None ps :: rest)
          end
      end
  end.

Definition px_column (df : DataFrame) (col : string) : result (list cell) :=
  match lookup col (columns df) with
  | Some c => Ok c
  | None => Raise (Exn ValueError "px: not the name of a column")
  end.

(** [px.scatter_mapbox(df, lat=, lon=, color=, hover_data=,
    color_discrete_map=, zoom=)]; [sequence] is the template's colour
    sequence, used for values that the map does not list. *)
Definition scatter_mapbox (sequence : list string) (df : DataFrame)
    (lat_n lon_n color_n : string) (hover_data : list string)
    (color_discrete_map : list (string * string)) (zoom_ : nat)
    : result Figure :=
  lat_c <- px_column df lat_n ;;
  lon_c <- px_column df lon_n ;;
  color_c <- px_column df color_n ;;
  hover <- mapM (px_column df) hover_data ;;
  let rows := px_rows df lat_c lon_c color_c hover in
  if numeric color_c then
    Ok (MkFigure [Trace None (ColourAxis (map fst rows)) None (map snd rows)]
                 zoom_)
  else
    traces <- discrete_traces sequence
                (map (fun kv => (CStr (fst kv), snd kv)) color_discrete_map)
                (group_rows rows) ;;
    Ok (MkFigure traces zoom_).

(** [fig.update_traces(marker=dict(size=n))] *)
Definition update_traces_marker_size (n : nat) (f : Figure) : Figure :=
  MkFigure (map (fun t => Trace (name t) (color t) (Some n) (points t))
                (data f))
           (zoom f).

(** What is drawn: every point with its colour. *)
Inductive colour :=
| Named (c : string)
| Scaled (v : cell).

Definition trace_points (t : trace) : list (point * colour) :=
  match color t with
  | Fixed c => map (fun p => (p, Named c)) (points t)
  | ColourAxis vs => combine (points t) (map Scaled vs)
  end.

Definition fig_points (f : Figure) : list (point * colour) :=
  flat_map trace_points (data f).

End Plotly.
Import Plotly.

(* ------------------------------------------------------------------ *)
(** * The map (app.py, lines 38-51 and 72) *)

Definition color_discrete_map : list (string * string) :=
  [(NOT_SATISFACTORY, "red");
   (SATISFACTORY, "yellow");
   (GOOD, "lightgreen");
   (VERY_GOOD, "green")].

(** [fig]: the scatter map of the prepared table.  The two [update_layout]
    calls (map style, centre, margins, legend position) do not touch the
    traces and are left out; [update_traces] sets the marker size. *)
Definition fig (sequence : list string) (merged_df : DataFrame)
    : result Figure :=
  f <- scatter_mapbox sequence merged_df "lat" "long" "NSE"
         ["gauge_id"; SCORE] color_discrete_map 3 ;;
  Ok (update_traces_marker_size 10 f).

(** The colour the source assigns to a category. *)
Definition category_colour (label : string) : option string :=
  lookup label color_discrete_map.

Definition palette : list string := ["red"; "yellow"; "lightgreen"; "green"].

(** The point the claim expects for row [i] of a table: the row's position
    and hover values, in the colour of the row's category. *)
Definition expected_point (df : DataFrame) (i : nat)
    : option (point * colour) :=
  match cell_at df "lat" i, cell_at df "long" i,
        cell_at df "gauge_id" i, cell_at df SCORE i, cell_at df "NSE" i with
  | Some la, Some lo, Some g, Some sc, Some (CStr lab) =>
      match category_colour lab with
      | Some c => Some (Point la lo [g; sc], Named c)
      | None => None
      end
  | _, _, _, _, _ => None
  end.

Definition plotly_colorway : list string :=
  ["#636efa"; "#EF553B"; "#00cc96"; "#ab63fa"; "#FFA15A";
   "#19d3f3"; "#FF6692"; "#B6E880"; "#FF97FF"; "#FECB52"].

Definition sample_map_table : DataFrame :=
  Frame 3 [("gauge_id", [CStr "g1"; CStr "g2"; CStr "g3"]);
           ("lat",
            [CFloat Float64.c05; CFloat Float64.c07; CFloat Float64.c08]);
           ("long", [CInt 1; CInt 2; CInt 3]);
           (SCORE, [CFloat Float64.c08; CFloat S754_nan; CFloat Float64.c07])].

(* ------------------------------------------------------------------ *)
(** * The click payload: a parsed JSON value *)

Module Json.

#[warnings="-register-all"]
Inductive payload :=
| PNone
| PBool (b : bool)
| PInt (z : Z)
| PFloat (x : spec_float)
| PStr (s : string)
| PList (l : list payload)
| PDict (d : list (string * payload)).

(** [bool(p)] *)
Definition truthy (p : payload) : bool :=
  match p with
  | PNone => false
  | PBool b => b
  | PInt z => negb (Z.eqb z 0)
  | PFloat x => negb (Float64.is_zero x)
  | PStr s => negb (String.eqb s "")
  | PList l => match l with [] => false | _ => true end
  | PDict d => match d with [] => false | _ => true end
  end.

(** The position an integer index denotes in a sequence of [len] items. *)
Definition py_index (i : Z) (len : nat) : option nat :=
  let n := Z.of_nat len in
  if (0 <=? i)%Z && (i <? n)%Z then Some (Z.to_nat i)
  else if (i <? 0)%Z && (- n <=? i)%Z then Some (Z.to_nat (i + n))
  else None.

(** [o[k]] with a string [k] *)
Definition getitem_str (o : payload) (k : string) : result payload :=
  match o with
  | PDict d =>
      match lookup k d with
      | Some v => Ok v
      | None => Raise (Exn KeyError "dict.__getitem__")
      end
  | PList _ => Raise (Exn TypeError "list indices must be integers")
  | PStr _ => Raise (Exn TypeError "string indices must be integers")
  | _ => Raise (Exn TypeError "object is not subscriptable")
  end.

(** [o[i]] with an integer [i].  The keys of a parsed JSON object are
    strings, so an integer is never one of them. *)
Definition getitem_int (o : payload) (i : Z) : result payload :=
  match o with
  | PList l =>
      match py_index i (List.length l) with
      | Some n =>
          match nth_error l n with
          | Some v => Ok v
          | None => Raise (Exn IndexError "list index out of range")
          end
      | None => Raise (Exn IndexError "list index out of range")
      end
  | PStr s =>
      match py_index i (String.length s) with
      | Some n =>
          match String.get n s with
          | Some c => Ok (PStr (String c EmptyString))
          | None => Raise (Exn IndexError "string index out of range")
          end
      | None => Raise (Exn IndexError "string index out of range")
      end
  | PDict _ => Raise (Exn KeyError "dict.__getitem__")
  | _ => Raise (Exn TypeError "object is not subscriptable")
  end.

End Json.
Import Json.

(* ------------------------------------------------------------------ *)
(** * xarray: Dataset, DataArray, [isel], [values] *)

Module Xarray.

(** The data of an array, one nesting level per dimension. *)
#[warnings="-register-all"]
Inductive ndarray :=
| Item (c : cell)
| Axis (xs : list ndarray).

(** A variable: its dimensions with their sizes, outermost first, and its
    data. *)
Record xvar := XVar {
  dims : list (string * nat);
  values : ndarray
}.

Record Dataset := MkDataset {
  data_vars : list (string * xvar);
  coords : list (string * xvar)
}.

Record DataArray := MkDataArray {
  variable : xvar;
  da_coords : list (string * xvar)
}.

Definition has_dim (d : string) (v : xvar) : bool :=
  existsb (fun e => String.eqb (fst e) d) (dims v).

(** The coordinates that go with a variable: those whose dimensions are
    all dimensions of the variable. *)
Definition coords_of (v : xvar) (cs : list (string * xvar))
    : list (string * xvar) :=
  filter (fun nc => forallb (fun e => has_dim (fst e) v) (dims (snd nc))) cs.

(** A dimension without a coordinate reads as the index 0, 1, ..., n-1. *)
Definition range_variable (d : string) (n : nat) : xvar :=
  XVar [(d, n)] (Axis (map (fun i => Item (CInt (Z.of_nat i))) (seq 0 n))).

Definition virtual_variable (d : string) (all_dims : list (string * nat))
    : result xvar :=
  match lookup d all_dims with
  | Some n => Ok (range_variable d n)
  | None => Raise (Exn KeyError "xarray: no variable of that name")
  end.

(** [ds[name]] *)
Definition ds_getitem (ds : Dataset) (name : string) : result DataArray :=
  v <- match lookup name (data_vars ds ++ coords ds) with
       | Some v => Ok v
       | None =>
           virtual_variable name
             (flat_map (fun nv => dims (snd nv)) (data_vars ds ++ coords ds))
       end ;;
  Ok (MkDataArray v (coords_of v (coords ds))).

(** [da[name]] *)
Definition da_getitem (da : DataArray) (name : string) : result DataArray :=
  v <- match lookup name (da_coords da) with
       | Some v => Ok v
       | None => virtual_variable name (dims (variable da))
       end ;;
  Ok (MkDataArray v (coords_of v (da_coords da))).

(** The last entry along the axis at depth [axis]; that axis disappears. *)
Fixpoint take_last (axis : nat) (a : ndarray) : ndarray :=
  match a with
  | Item c => Item c
  | Axis xs =>
      match axis with
      | O => last xs (Axis [])
      | S k => Axis (map (take_last k) xs)
      end
  end.

Fixpoint dim_position (d : string) (ds : list (string * nat))
    : option (nat * nat) :=
  match ds with
  | [] => None
  | (n, sz) :: t =>
      if String.eqb n d then Some (O, sz)
      else match dim_position d t with
           | Some (k, s) => Some (S k, s)
           | None => None
           end
  end.

Fixpoint remove_nth {A} (k : nat) (l : list A) : list A :=
  match l, k with
  | [], _ => []
  | _ :: t, O => t
  | x :: t, S k' => x :: remove_nth k' t
  end.

(** [v.isel({d: -1})] on a variable that has the dimension [d]. *)
Definition var_isel_last (d : string) (v : xvar) : result xvar :=
  match dim_position d (dims v) with
  | None => Raise (Exn ValueError "isel: dimension does not exist")
  | Some (k, O) => Raise (Exn IndexError "index -1 is out of bounds")
  | Some (k, S _) => Ok (XVar (remove_nth k (dims v)) (take_last k (values v)))
  end.

(** [da.isel(d=-1)]: the variable and every coordinate along [d] are
    indexed; a name that is not a dimension of the array is an error. *)
Definition isel_last (d : string) (da : DataArray) : result DataArray :=
  if has_dim d (variable da) then
    v <- var_isel_last d (variable da) ;;
    cs <- mapM (fun nc =>
                  if has_dim d (snd nc)
                  then c <- var_isel_last d (snd nc) ;; Ok (fst nc, c)
                  else Ok nc)
               (da_coords da) ;;
    Ok (MkDataArray v cs)
  else Raise (Exn ValueError "isel: dimension does not exist").

(** [da.values]: the numpy array of the variable. *)
Definition da_values (da : DataArray) : xvar := variable da.

Definition ndim (a : xvar) : nat := List.length (dims a).

(** The entries of a one-dimensional array. *)
Definition items (a : ndarray) : result (list cell) :=
  match a with
  | Axis xs =>
      mapM (fun x => match x with
                     | Item c => Ok c
                     | Axis _ => Raise (Exn ValueError "ragged array")
                     end) xs
  | Item _ => Raise (Exn ValueError "ragged array")
  end.

End Xarray.
Import Xarray.

(* ------------------------------------------------------------------ *)
(** * [pd.DataFrame(dict of numpy arrays)] *)

(** The lengths of the one-dimensional values; an array of two or more
    dimensions is refused. *)
Fixpoint raw_lengths (arrays : list (string * xvar)) : result (list nat) :=
  match arrays with
  | [] => Ok []
  | (_, a) :: t =>
      match ndim a, dims a with
      | 1, [(_, n)] => ns <- raw_lengths t ;; Ok (n :: ns)
      | 0, _ => raw_lengths t
      | _, _ =>
          Raise (Exn ValueError
                   "Per-column arrays must each be 1-dimensional")
      end
  end.

Definition frame_column (n : nat) (a : xvar) : result (list cell) :=
  match values a with
  | Item c => Ok (repeat c n)
  | Axis _ => items (values a)
  end.

(** The index is the common length of the one-dimensional arrays; values of
    dimension zero are repeated along it.  Without any one-dimensional array
    there is no index. *)
Definition DataFrame_of_arrays (arrays : list (string * xvar))
    : result DataFrame :=
  lens <- raw_lengths arrays ;;
  match lens with
  | [] =>
      Raise (Exn ValueError
               "If using all scalar values, you must pass an index")
  | n :: rest =>
      if forallb (Nat.eqb n) rest then
        cols <- mapM (fun na => c <- frame_column n (snd na) ;;
                                Ok (fst na, c)) arrays ;;
        Ok (Frame n cols)
      else Raise (Exn ValueError "All arrays must be of the same length")
  end.

(* ------------------------------------------------------------------ *)
(** * matplotlib.pyplot: figures and the registry of open figures *)

Module Pyplot.

Record Line := MkLine {
  xdata : list cell;
  ydata : list cell;
  label : string;
  line_color : string;
  alpha : option spec_float
}.

Record MplFigure := MkMplFigure {
  figsize : option (nat * nat);
  lines : list Line;
  title : string;
  xlabel : string;
  ylabel : string;
  legend : bool;
  tight : bool
}.

Definition new_figure (sz : option (nat * nat)) : MplFigure :=
  MkMplFigure sz [] "" "" "" false false.

(** The open figures by number; the current figure is the last one. *)
Definition registry := list (nat * MplFigure).

(** A computation that may raise and that acts on the registry; the
    registry keeps what was done before an exception. *)
Definition M (A : Type) : Type := registry -> result A * registry.

Definition ret {A} (a : A) : M A := fun reg => (Ok a, reg).

Definition lift {A} (r : result A) : M A := fun reg => (r, reg).

Definition mbind {A B} (m : M A) (k : A -> M B) : M B :=
  fun reg =>
    match m reg with
    | (Ok a, reg') => k a reg'
    | (Raise e, reg') => (Raise e, reg')
    end.

(** [try: m  except Exception as e: h e] *)
Definition try_except {A} (m : M A) (h : exn -> M A) : M A :=
  fun reg =>
    match m reg with
    | (Ok a, reg') => (Ok a, reg')
    | (Raise e, reg') => h e reg'
    end.

Definition next_num (reg : registry) : nat :=
  S (fold_right Nat.max 0 (map fst reg)).

Fixpoint update_fig (n : nat) (f : MplFigure -> MplFigure) (reg : registry)
    : registry :=
  match reg with
  | [] => []
  | (m, g) :: t =>
      if Nat.eqb m n then (m, f g) :: t else (m, g) :: update_fig n f t
  end.

(** [plt.subplots(figsize=...)]: a new figure with one axes becomes the
    current figure; the result stands for both [fig_] and [ax]. *)
Definition subplots (sz : nat * nat) : M nat :=
  fun reg =>
    let n := next_num reg in (Ok n, reg ++ [(n, new_figure (Some sz))]).

(** A method of the axes or figure number [n]. *)
Definition on_figure (n : nat) (f : MplFigure -> MplFigure) : M unit :=
  fun reg => (Ok tt, update_fig n f reg).

(** The current figure; pyplot opens one when there is none. *)
Definition gcf : M (nat * MplFigure) :=
  fun reg =>
    match rev reg with
    | cur :: _ => (Ok cur, reg)
    | [] => (Ok (1, new_figure None), [(1, new_figure None)])
    end.

Definition ax_plot (ax : nat) (x y : list cell) (lbl col : string)
    (al : option spec_float) : M unit :=
  on_figure ax (fun g =>
    MkMplFigure (figsize g) (lines g ++ [MkLine x y lbl col al])
                (title g) (xlabel g) (ylabel g) (legend g) (tight g)).

Definition ax_set_title (ax : nat) (s : string) : M unit :=
  on_figure ax (fun g =>
    MkMplFigure (figsize g) (lines g) s (xlabel g) (ylabel g) (legend g)
                (tight g)).

Definition ax_set_xlabel (ax : nat) (s : string) : M unit :=
  on_figure ax (fun g =>
    MkMplFigure (figsize g) (lines g) (title g) s (ylabel g) (legend g)
                (tight g)).

Definition ax_set_ylabel (ax : nat) (s : string) : M unit :=
  on_figure ax (fun g =>
    MkMplFigure (figsize g) (lines g) (title g) (xlabel g) s (legend g)
                (tight g)).

Definition ax_legend (ax : nat) : M unit :=
  on_figure ax (fun g =>
    MkMplFigure (figsize g) (lines g) (title g) (xlabel g) (ylabel g) true
                (tight g)).

(** [plt.tight_layout()], on the current figure. *)
Definition tight_layout : M unit :=
  mbind gcf (fun cur =>
    on_figure (fst cur) (fun g =>
      MkMplFigure (figsize g) (lines g) (title g) (xlabel g) (ylabel g)
                  (legend g) true)).

(** [plt.close(fig_)] *)
Definition close (n : nat) : M unit :=
  fun reg => (Ok tt, filter (fun e => negb (Nat.eqb (fst e) n)) reg).

(** The eight bytes every PNG file starts with. *)
Definition png_signature : list byte :=
  [x89; x50; x4e; x47; x0d; x0a; x1a; x0a].

End Pyplot.
Import Pyplot.

Declare Scope io_scope.
Delimit Scope io_scope with io.
Notation "x <- m ;; k" := (Pyplot.mbind m (fun x => k))
  (at level 61, m at next level, right associativity) : io_scope.
Notation "m ;;; k" := (Pyplot.mbind m (fun _ => k))
  (at level 61, right associativity) : io_scope.

(* ------------------------------------------------------------------ *)
(** * base64 *)

Module Base64.

Definition alphabet : string :=
  "ABCDEFGHIJKLMNOPQRSTUVWXYZabcdefghijklmnopqrstuvwxyz0123456789+/".

Definition sextet (n : N) : ascii :=
  match String.get (N.to_nat n) alphabet with
  | Some c => c
  | None => "="%char
  end.

(** [base64.b64encode(bs).decode("utf-8")] *)
Fixpoint b64encode (bs : list byte) : string :=
  match bs with
  | [] => ""
  | [a] =>
      let a := Byte.to_N a in
      String (sextet (a / 4))
        (String (sextet (a mod 4 * 16)) "==")
  | [a; b] =>
      let a := Byte.to_N a in
      let b := Byte.to_N b in
      String (sextet (a / 4))
        (String (sextet (a mod 4 * 16 + b / 16))
           (String (sextet (b mod 16 * 4)) "="))
  | a :: b :: c :: rest =>
      let a := Byte.to_N a in
      let b := Byte.to_N b in
      let c := Byte.to_N c in
      String (sextet (a / 4))
        (String (sextet (a mod 4 * 16 + b / 16))
           (String (sextet (b mod 16 * 4 + c / 64))
              (String (sextet (c mod 64)) (b64encode rest))))
  end.

End Base64.

(* ------------------------------------------------------------------ *)
(** * What the libraries decide *)

(** The texts Python prints for floats, quoted strings and exceptions, and
    the PNG data stream matplotlib draws for a figure (everything after the
    signature; drawing may raise).  The properties below hold for every
    choice of these. *)
Class Externals := {
  float_repr : spec_float -> string;
  str_repr : string -> string;
  exn_text : exn -> string;
  png_stream : MplFigure -> result (list byte)
}.

Section Text.
Context {X : Externals}.

Definition join (sep : string) (l : list string) : string :=
  String.concat sep l.

Definition int_str (z : Z) : string := NilZero.string_of_int (Z.to_int z).

(** [repr(p)] *)
Fixpoint py_repr (p : payload) : string :=
  match p with
  | PNone => "None"
  | PBool true => "True"
  | PBool false => "False"
  | PInt z => int_str z
  | PFloat x => float_repr x
  | PStr s => str_repr s
  | PList l => ("[" ++ join ", " (map py_repr l) ++ "]")%string
  | PDict d =>
      ("{" ++ join ", " (map (fun kv => str_repr (fst kv) ++ ": "
                                         ++ py_repr (snd kv)) d) ++ "}")%string
  end.

(** [str(p)], which is what an f-string puts for [{p}]. *)
Definition py_str (p : payload) : string :=
  match p with
  | PStr s => s
  | _ => py_repr p
  end.

End Text.

(* ------------------------------------------------------------------ *)
(** * The Results Store *)

(** A key of the store.  Python compares keys by value: [True == 1] and
    [1.0 == 1] name the same key. *)
Inductive key :=
| KStr (s : string)
| KInt (z : Z).

Definition key_eqb (a b : key) : bool :=
  match a, b with
  | KStr x, KStr y => String.eqb x y
  | KInt x, KInt y => Z.eqb x y
  | _, _ => false
  end.

(** What a resolution holds under a name: the xarray dataset, or a number
    (a metric). *)
Inductive item :=
| IDataset (ds : Dataset)
| INumber (x : spec_float).

(** station -> resolution -> name -> item *)
Definition store := list (key * list (string * list (string * item))).

Fixpoint key_lookup {A} (k : key) (d : list (key * A)) : option A :=
  match d with
  | [] => None
  | (k', v) :: t => if key_eqb k' k then Some v else key_lookup k t
  end.

(** The key a hashable payload value is equal to, if it can be equal to
    one at all. *)
Definition station_key (g : payload) : option key :=
  match g with
  | PStr s => Some (KStr s)
  | PInt z => Some (KInt z)
  | PBool b => Some (KInt (if b then 1 else 0))
  | PFloat x =>
      match Float64.to_Z_exact x with
      | Some z => Some (KInt z)
      | None => None
      end
  | _ => None
  end.

(** [results[gauge_id]] *)
Definition results_getitem (results : store) (gauge_id : payload)
    : result (list (string * list (string * item))) :=
  match gauge_id with
  | PList _ | PDict _ => Raise (Exn TypeError "unhashable type")
  | _ =>
      match station_key gauge_id with
      | Some k =>
          match key_lookup k results with
          | Some v => Ok v
          | None => Raise (Exn KeyError "results[gauge_id]")
          end
      | None => Raise (Exn KeyError "results[gauge_id]")
      end
  end.

Definition dict_getitem {A} (d : list (string * A)) (k : string) : result A :=
  match lookup k d with
  | Some v => Ok v
  | None => Raise (Exn KeyError "dict.__getitem__")
  end.

(** [it[name]] on what was found under ['xr']. *)
Definition item_getitem (it : item) (name : string) : result DataArray :=
  match it with
  | IDataset ds => ds_getitem ds name
  | INumber _ => Raise (Exn TypeError "object is not subscriptable")
  end.

(* ------------------------------------------------------------------ *)
(** * The interaction handler (app.py, lines 94-127) *)

Definition PLACEHOLDER : string :=
  "Click a gauge on the map to view the streamflow.".

(** What the callback hands back to Dash. *)
Inductive fragment :=
| Div (text : string)
| Img (src : string).

(** Line 98: [clickData['points'][0]['customdata'][0]] *)
Definition extract_gauge_id (clickData : payload) : result payload :=
  points <- getitem_str clickData "points" ;;
  point <- getitem_int points 0 ;;
  customdata <- getitem_str point "customdata" ;;
  getitem_int customdata 0.

(** Lines 101-109: from the store to the table of the chart. *)
Definition chart_table (results : store) (gauge_id : payload)
    : result DataFrame :=
  station <- results_getitem results gauge_id ;;
  daily <- dict_getitem station "1D" ;;
  ds <- dict_getitem daily "xr" ;;
  obs0 <- item_getitem ds "flow_mm_d_obs" ;;
  obs <- isel_last "time_step" obs0 ;;
  sim0 <- item_getitem ds "flow_mm_d_sim" ;;
  sim <- isel_last "time_step" sim0 ;;
  date <- da_getitem obs "date" ;;
  DataFrame_of_arrays
    [("date", da_values date);
     ("Observed Flow (mm/d)", da_values obs);
     ("Simulated Flow (mm/d)", da_values sim)].

Section Handler.
Context {X : Externals}.

#[local] Open Scope io_scope.

(** [plt.savefig(buf, format="png")]: the current figure is drawn into the
    buffer. *)
Definition savefig : M (list byte) :=
  cur <- gcf ;;
  body <- lift (png_stream (snd cur)) ;;
  ret (png_signature ++ body).

(** Lines 111-124: the chart, its PNG and the data URI. *)
Definition draw_chart (gauge_id : payload) (df : DataFrame) : M fragment :=
  ax <- subplots (8, 8) ;;
  x <- lift (getitem df "date") ;;
  y <- lift (getitem df "Observed Flow (mm/d)") ;;
  ax_plot ax x y "Observed" "black" None ;;;
  x <- lift (getitem df "date") ;;
  y <- lift (getitem df "Simulated Flow (mm/d)") ;;
  ax_plot ax x y "Simulated" "blue" (Some Float64.c07) ;;;
  ax_set_title ax ("Streamflow at Gauge " ++ py_str gauge_id)%string ;;;
  ax_set_xlabel ax "Date" ;;;
  ax_set_ylabel ax "Flow (mm/day)" ;;;
  ax_legend ax ;;;
  tight_layout ;;;
  buf <- savefig ;;
  close ax ;;;
  let encoded := Base64.b64encode buf in
  ret (Img ("data:image/png;base64," ++ encoded)%string).

(** The body of the [try]. *)
Definition plot_gauge (results : store) (gauge_id : payload) : M fragment :=
  df <- lift (chart_table results gauge_id) ;;
  draw_chart gauge_id df.

Definition error_text (gauge_id : payload) (e : exn) : string :=
  ("Error loading streamflow for gauge " ++ py_str gauge_id ++ ": "
   ++ exn_text e)%string.

(** [update_plot(clickData)], with the module-level [results] as an
    argument. *)
Definition update_plot (results : store) (clickData : payload) : M fragment :=
  if negb (truthy clickData) then ret (Div PLACEHOLDER)
  else
    gauge_id <- lift (extract_gauge_id clickData) ;;
    try_except (plot_gauge results gauge_id)
               (fun e => ret (Div (error_text gauge_id e))).

End Handler.

(* ------------------------------------------------------------------ *)
(** * Sample data for the handler *)

(** The figure the handler draws for a station and a chart table. *)
Definition chart_of {X : Externals} (gauge_id : payload)
    (dates obs sim : list cell) : MplFigure :=
  MkMplFigure (Some (8, 8))
    [MkLine dates obs "Observed" "black" None;
     MkLine dates sim "Simulated" "blue" (Some Float64.c07)]
    ("Streamflow at Gauge " ++ py_str gauge_id)%string
    "Date" "Flow (mm/day)" true true.

(** A daily dataset laid out as date x time_step: one row of [obs] and of
    [sim] per date, one entry per time step in each row; [date] is the
    coordinate of the first dimension and [time_step] numbers the second. *)
Definition matrix (rows : list (list cell)) : ndarray :=
  Axis (map (fun r => Axis (map Item r)) rows).

Definition daily_dataset (steps : nat) (dates : list cell)
    (obs sim : list (list cell)) : Dataset :=
  let n := List.length dates in
  MkDataset
    [("flow_mm_d_obs", XVar [("date", n); ("time_step", steps)] (matrix obs));
     ("flow_mm_d_sim", XVar [("date", n); ("time_step", steps)] (matrix sim))]
    [("date", XVar [("date", n)] (Axis (map Item dates)));
     ("time_step", range_variable "time_step" steps)].

(** A series laid out along time_step alone, the date a coordinate of that
    dimension. *)
Definition series_dataset (dates obs sim : list cell) : Dataset :=
  let n := List.length dates in
  MkDataset
    [("flow_mm_d_obs", XVar [("time_step", n)] (Axis (map Item obs)));
     ("flow_mm_d_sim", XVar [("time_step", n)] (Axis (map Item sim)))]
    [("date", XVar [("time_step", n)] (Axis (map Item dates)))].

Definition station_with (ds : Dataset)
    : list (string * list (string * item)) :=
  [("1D", [("xr", IDataset ds)])].

Definition toy_externals : Externals := {|
  float_repr := fun _ => "nan";
  str_repr := fun s => ("'" ++ s ++ "'")%string;
  exn_text := fun e => exn_origin e;
  png_stream := fun g =>
    match lines g with
    | [] => Raise (Exn OtherError "nothing to draw")
    | _ => Ok [x00]
    end
|}.

Definition click (gauge_id : payload) : payload :=
  PDict [("points",
          PList [PDict [("customdata",
                         PList [gauge_id; PFloat Float64.c07])]])].

Definition two_days : Dataset :=
  daily_dataset 1 [CDate 0; CDate 86400000000000]
    [[CFloat Float64.c05]; [CFloat Float64.c07]]
    [[CFloat Float64.c07]; [CFloat Float64.c08]].

Definition three_steps : Dataset :=
  series_dataset [CDate 0; CDate 1; CDate 2]
    [CFloat Float64.c05; CFloat Float64.c07; CFloat Float64.c08]
    [CFloat Float64.c05; CFloat Float64.c07; CFloat Float64.c08].

Definition sample_results : store :=
  [(KStr "01013500", station_with two_days);
   (KStr "01022500", station_with three_steps)].

(** Notions used to state the properties of the preparation. *)

(** The float64 values of a numeric column. *)
Fixpoint floats (col : list cell) : option (list spec_float) :=
  match col with
  | [] => Some []
  | c :: t =>
      match as_float c, floats t with
      | Some x, Some xs => Some (x :: xs)
      | _, _ => None
      end
  end.

(** The column the four statements leave in ['NSE']. *)
Definition nse_column (fs : list spec_float) : list cell :=
  map (fun s => CStr (row_label s)) fs.

(** The names after an assignment: unchanged when the column was there,
    one more at the end when it was not. *)
Definition names_after (name : string) (names : list string) : list string :=
  if existsb (String.eqb name) names then names else names ++ [name].

(** Notions used to state the properties of the map. *)

(** The rows of a grouping, each with the key of its group. *)
Definition ungroup (gs : list (cell * list point)) : list (cell * point) :=
  flat_map (fun g => map (pair (fst g)) (snd g)) gs.

(** The colour of a colour value under [color_discrete_map]. *)
Definition mapped_colour (k : cell) : string :=
  match k with
  | CStr lab => match category_colour lab with Some c => c | None => "" end
  | _ => ""
  end.

(** Notions used to state the properties of the handler. *)

(** [needle] occurs in [text]. *)
Definition contains (needle text : string) : Prop :=
  exists pre post, text = (pre ++ needle ++ post)%string.

(** What the drawing of the chart of a table gives, the registry aside. *)
Definition draw_result {X : Externals} (gauge_id : payload) (df : DataFrame)
    : result fragment :=
  x1 <- getitem df "date" ;;
  y1 <- getitem df "Observed Flow (mm/d)" ;;
  x2 <- getitem df "date" ;;
  y2 <- getitem df "Simulated Flow (mm/d)" ;;
  body <- png_stream
            (MkMplFigure (Some (8, 8))
               [MkLine x1 y1 "Observed" "black" None;
                MkLine x2 y2 "Simulated" "blue" (Some Float64.c07)]
               ("Streamflow at Gauge " ++ py_str gauge_id)%string
               "Date" "Flow (mm/day)" true true) ;;
  Ok (Img ("data:image/png;base64,"
           ++ Base64.b64encode (png_signature ++ body))%string).

(** What the body of the [try] gives, the registry aside. *)
Definition plot_result {X : Externals} (results : store) (gauge_id : payload)
    : result fragment :=
  df <- chart_table results gauge_id ;;
  draw_result gauge_id df.

(** No station of the store has the identifier [gauge_id]. *)
Definition absent (results : store) (gauge_id : payload) : bool :=
  match station_key gauge_id with
  | Some k =>
      match key_lookup k results with
      | Some _ => false
      | None => true
      end
  | None => true
  end.

Definition is_image (f : fragment) : bool :=
  match f with Img _ => true | Div _ => false end.

(** The last entry of a row of a date x time_step matrix. *)
Definition last_step (row : list cell) : cell := last row NaN.

(** Notions used to state further properties of the preparation. *)

(** The category as one cascade of lower bounds, highest first. *)
Definition classify (s : spec_float) : string :=
  if Float64.gt s Float64.c08 then VERY_GOOD
  else if Float64.gt s Float64.c07 then GOOD
  else if Float64.gt s Float64.c05 then SATISFACTORY
  else NOT_SATISFACTORY.

(** The place of a label in the order of the legend, worst first. *)
Definition rank (label : string) : nat :=
  if String.eqb label VERY_GOOD then 3
  else if String.eqb label GOOD then 2
  else if String.eqb label SATISFACTORY then 1
  else 0.

(** The class of the exception a computation raises. *)
Definition raises {A} (r : result A) (c : exn_class) : Prop :=
  exists origin, r = Raise (Exn c origin).

(** Notions used to state further properties of the handler. *)

(** What [c[0]] is when it exists: the first item of a non-empty list, the
    first character of a non-empty string. *)
Definition first_item (c : payload) : option payload :=
  match c with
  | PList (x :: _) => Some x
  | PStr (String ch _) => Some (PStr (String ch EmptyString))
  | _ => None
  end.

Definition is_mapping (p : payload) : bool :=
  match p with PDict _ => true | _ => false end.

(** A renderer that always fails, to run the handler's error path. *)
Definition failing_renderer : Externals := {|
  float_repr := fun _ => "nan";
  str_repr := fun s => ("'" ++ s ++ "'")%string;
  exn_text := fun e => exn_origin e;
  png_stream := fun _ => Raise (Exn OtherError "savefig")
|}.

(** Notions used to state further properties of the map. *)

(** The trace of a group of rows of one category. *)
Definition category_trace (g : cell * list point) : trace :=
  Trace (Some (fst g)) (Fixed (mapped_colour (fst g))) None (snd g).

Definition MAP_COLUMNS : list string := ["lat"; "long"; "gauge_id"].

(** Sample stores for the error paths of the lookup. *)
Definition no_steps : Dataset :=
  daily_dataset 0 [CDate 0; CDate 86400000000000] [[]; []] [[]; []].

Definition broken_results : store :=
  [(KStr "a", []);
   (KStr "b", [("1D", [])]);
   (KStr "c", [("1D", [("xr", INumber Float64.c07)])]);
   (KStr "d", station_with no_steps)].

(* ------------------------------------------------------------------ *)
(** * Start-up: preparation, map and map centre (app.py, lines 29-58) *)

Section Startup.

(** [Series.mean()], which pandas decides. *)
Variable series_mean : list cell -> result spec_float.

(** Line 55: the centre of the map, the mean of the columns ['latitude']
    and ['longitude']. *)
Definition mapbox_center (merged_df : DataFrame)
    : result (spec_float * spec_float) :=
  la <- getitem merged_df "latitude" ;;
  lat_mean <- series_mean la ;;
  lo <- getitem merged_df "longitude" ;;
  lon_mean <- series_mean lo ;;
  Ok (lat_mean, lon_mean).

(** The module-level statements in their order: the category column, the
    scatter map, the centre of its layout. *)
Definition startup (sequence : list string) (loaded : DataFrame)
    : result (DataFrame * Figure * (spec_float * spec_float)) :=
  merged_df <- add_NSE_category loaded ;;
  f <- fig sequence merged_df ;;
  center <- mapbox_center merged_df ;;
  Ok (merged_df, f, center).

End Startup.

Definition STARTUP_COLUMNS : list string :=
  [SCORE; "lat"; "long"; "gauge_id"; "latitude"; "longitude"].

(** A mean that does not compute, to run the start-up. *)
Definition toy_mean (col : list cell) : result spec_float :=
  match col with
  | [] => Ok S754_nan
  | c :: _ => match as_float c with
              | Some x => Ok x
              | None => Raise (Exn TypeError "Series.mean")
              end
  end.

Definition full_table : DataFrame :=
  Frame 2 [("gauge_id", [CStr "g1"; CStr "g2"]);
           ("lat", [CFloat Float64.c05; CFloat Float64.c07]);
           ("long", [CInt 1; CInt 2]);
           ("latitude", [CFloat Float64.c05; CFloat Float64.c07]);
           ("longitude", [CInt 1; CInt 2]);
           (SCORE, [CFloat Float64.c08; CFloat S754_nan])].

(* ================================================================== *)
(** * Properties *)

(* ------------------------------------------------------------------ *)
(** ** Order facts on float64 against the three thresholds *)

Section FloatOrder.
Import Float64.

Lemma SFcompare_antisym x y :
  SFcompare y x = option_map CompOpp (SFcompare x y).
Proof.
  destruct x as [sx | sx | | sx mx ex], y as [sy | sy | | sy my ey];
    try destruct sx; try destruct sy; try reflexivity;
    cbn [SFcompare option_map].
  all: rewrite (Z.compare_antisym ex ey);
    destruct (ex ?= ey)%Z; cbn; try reflexivity.
  all: change (Pos.compare_cont Eq ?a ?b) with (Pos.compare a b).
  all: rewrite (Pos.compare_antisym mx my);
    destruct (mx ?= my)%positive; reflexivity.
Qed.

(** [s <= c] and [s > c] never hold together. *)
Lemma le_not_gt s c : le s c = true -> gt s c = false.
Proof.
  unfold le, gt, SFleb, SFltb. rewrite (SFcompare_antisym s c).
  destruct (SFcompare s c) as [[]|]; cbn; congruence.
Qed.

(** Above a positive threshold means above every smaller threshold with
    the same exponent. *)
Lemma gt_mono_pos s m1 m2 e :
  (m1 <= m2)%positive ->
  gt s (S754_finite false m2 e) = true ->
  gt s (S754_finite false m1 e) = true.
Proof.
  intros Hm. unfold gt, SFltb.
  destruct s as [sx | sx | | sx mx ex]; try destruct sx;
    cbn [SFcompare]; try congruence.
  destruct (Z.compare_spec e ex); try congruence.
  change (Pos.compare_cont Eq ?a ?b) with (Pos.compare a b).
  destruct (Pos.compare_spec m2 mx); try congruence.
  destruct (Pos.compare_spec m1 mx); try congruence; lia.
Qed.

Lemma gt_c07_gt_c05 s : gt s c07 = true -> gt s c05 = true.
Proof. apply gt_mono_pos. apply Pos.leb_le. vm_compute. reflexivity. Qed.

Lemma gt_c08_gt_c07 s : gt s c08 = true -> gt s c07 = true.
Proof. apply gt_mono_pos. apply Pos.leb_le. vm_compute. reflexivity. Qed.

Lemma not_gt_c07_c08 s : gt s c07 = false -> gt s c08 = false.
Proof.
  intros H. destruct (gt s c08) eqn:E; auto.
  apply gt_c08_gt_c07 in E. congruence.
Qed.

Lemma not_gt_c05_c07 s : gt s c05 = false -> gt s c07 = false.
Proof.
  intros H. destruct (gt s c07) eqn:E; auto.
  apply gt_c07_gt_c05 in E. congruence.
Qed.

End FloatOrder.

(* ------------------------------------------------------------------ *)
(** ** The label of one row *)

Lemma row_label_in_labels s : In (row_label s) labels.
Proof.
  unfold row_label, labels.
  destruct (Float64.gt s Float64.c08); [simpl; tauto|].
  destruct (Float64.gt s Float64.c07 && Float64.le s Float64.c08);
    [simpl; tauto|].
  destruct (Float64.gt s Float64.c05 && Float64.le s Float64.c07);
    simpl; tauto.
Qed.

Lemma row_label_low s :
  Float64.le s Float64.c05 = true -> row_label s = NOT_SATISFACTORY.
Proof.
  intros H. apply le_not_gt in H. unfold row_label.
  pose proof (not_gt_c05_c07 _ H) as H7.
  pose proof (not_gt_c07_c08 _ H7) as H8.
  rewrite H, H7, H8. reflexivity.
Qed.

Lemma row_label_satisfactory s :
  Float64.gt s Float64.c05 = true -> Float64.le s Float64.c07 = true ->
  row_label s = SATISFACTORY.
Proof.
  intros H5 H. pose proof (le_not_gt _ _ H) as H7.
  pose proof (not_gt_c07_c08 _ H7) as H8.
  unfold row_label. rewrite H5, H, H7, H8. reflexivity.
Qed.

Lemma row_label_good s :
  Float64.gt s Float64.c07 = true -> Float64.le s Float64.c08 = true ->
  row_label s = GOOD.
Proof.
  intros H7 H. pose proof (le_not_gt _ _ H) as H8.
  unfold row_label. rewrite H7, H, H8. reflexivity.
Qed.

Lemma row_label_very_good s :
  Float64.gt s Float64.c08 = true -> row_label s = VERY_GOOD.
Proof. intros H. unfold row_label. rewrite H. reflexivity. Qed.

Lemma row_label_nan : row_label S754_nan = NOT_SATISFACTORY.
Proof. reflexivity. Qed.

(* ------------------------------------------------------------------ *)
(** ** Columns: lookup after assignment *)

Lemma lookup_replace_same name c cols :
  lookup name (replace_column name c cols) = Some c.
Proof.
  induction cols as [| [n old] t IH]; simpl.
  - rewrite String.eqb_refl. reflexivity.
  - destruct (String.eqb n name) eqn:E; simpl; rewrite E; auto.
Qed.

Lemma lookup_replace_other n name c cols :
  n <> name -> lookup n (replace_column name c cols) = lookup n cols.
Proof.
  intros Hn. induction cols as [| [m old] t IH]; simpl.
  - apply String.eqb_neq in Hn. rewrite String.eqb_sym, Hn. reflexivity.
  - destruct (String.eqb m name) eqn:E; simpl.
    + apply String.eqb_eq in E. subst m.
      destruct (String.eqb name n) eqn:E'; auto.
      apply String.eqb_eq in E'. congruence.
    + destruct (String.eqb m n); auto.
Qed.

Lemma replace_replace name c1 c2 cols :
  replace_column name c2 (replace_column name c1 cols)
  = replace_column name c2 cols.
Proof.
  induction cols as [| [n old] t IH]; simpl.
  - rewrite String.eqb_refl. reflexivity.
  - destruct (String.eqb n name) eqn:E; simpl; rewrite E; congruence.
Qed.

Lemma set_column_twice df name c1 c2 :
  set_column (set_column df name c1) name c2 = set_column df name c2.
Proof. unfold set_column. simpl. rewrite replace_replace. reflexivity. Qed.

Lemma names_replace name c cols :
  map fst (replace_column name c cols) = names_after name (map fst cols).
Proof.
  unfold names_after. induction cols as [| [n old] t IH]; simpl; auto.
  rewrite (String.eqb_sym name n).
  destruct (String.eqb n name) eqn:E; simpl; auto.
  rewrite IH. destruct (existsb (String.eqb name) (map fst t)); auto.
Qed.

(* ------------------------------------------------------------------ *)
(** ** Masks over a column of floats *)

Lemma compare_scalar_floats op col y :
  compare_scalar op col y
  = match floats col with
    | Some fs => Ok (map (fun x => op x y) fs)
    | None => Raise (Exn TypeError "Series comparison")
    end.
Proof.
  unfold compare_scalar. induction col as [| c t IH]; simpl; auto.
  destruct (as_float c); auto. rewrite IH.
  destruct (floats t); auto.
Qed.

Lemma floats_length col fs :
  floats col = Some fs -> List.length fs = List.length col.
Proof.
  revert fs. induction col as [| c t IH]; simpl; intros fs H.
  - injection H as <-. reflexivity.
  - destruct (as_float c); [|discriminate].
    destruct (floats t) eqn:E; [|discriminate].
    injection H as <-. simpl. f_equal. auto.
Qed.

Lemma floats_nth col fs i c s :
  floats col = Some fs -> nth_error col i = Some c -> as_float c = Some s ->
  nth_error fs i = Some s.
Proof.
  revert fs i. induction col as [| c0 t IH]; simpl; intros fs i H Hi Hs.
  - destruct i; discriminate.
  - destruct (as_float c0) eqn:E0; [|discriminate].
    destruct (floats t) eqn:E; [|discriminate].
    injection H as <-. destruct i; simpl in *.
    + injection Hi as ->. congruence.
    + eauto.
Qed.

Lemma floats_numeric col :
  numeric col = true -> exists fs, floats col = Some fs.
Proof.
  unfold numeric. induction col as [| c t IH]; simpl; intros H.
  - eauto.
  - apply andb_true_iff in H as [Hc Ht].
    destruct (as_float c); [|discriminate].
    destruct (IH Ht) as [fs ->]. eauto.
Qed.

Lemma series_and_map {A} (f g : A -> bool) l :
  series_and (map f l) (map g l) = map (fun x => f x && g x) l.
Proof. induction l; simpl; congruence. Qed.

Lemma where_mask_map {A} (f : A -> bool) (g : A -> cell) v l :
  where_mask (map f l) v (map g l) = map (fun x => if f x then v else g x) l.
Proof. induction l; simpl; congruence. Qed.

Lemma repeat_as_map {A B} (v : B) (l : list A) :
  repeat v (List.length l) = map (fun _ => v) l.
Proof. induction l; simpl; congruence. Qed.

(* ------------------------------------------------------------------ *)
(** ** Dataset preparation, statement by statement *)

Remark SCORE_not_NSE : SCORE <> "NSE".
Proof. discriminate. Qed.

Lemma getitem_score_after_nse df c :
  getitem (set_column df "NSE" c) SCORE = getitem df SCORE.
Proof.
  unfold getitem. cbn [columns set_column].
  rewrite (lookup_replace_other _ _ SCORE_not_NSE). reflexivity.
Qed.

(** One conditional overwrite of ['NSE'], the mask and the old column both
    given row by row. *)
Lemma loc_set_nse df fs (f : spec_float -> bool) (g : spec_float -> cell) v :
  List.length fs = nrows df ->
  loc_set (set_column df "NSE" (map g fs)) (map f fs) "NSE" v
  = Ok (set_column df "NSE" (map (fun x => if f x then v else g x) fs)).
Proof.
  intros Hlen. unfold loc_set. cbn [columns nrows set_column].
  rewrite length_map, Hlen, Nat.eqb_refl. cbn [negb].
  rewrite lookup_replace_same, where_mask_map.
  change (Frame (nrows df) (replace_column "NSE" ?c (columns df)))
    with (set_column df "NSE" c).
  rewrite set_column_twice. reflexivity.
Qed.

Lemma loc_set_bad_length df mask name v :
  List.length mask <> nrows df ->
  loc_set df mask name v = Raise (Exn IndexError "DataFrame.loc.__setitem__").
Proof.
  intros H. unfold loc_set. apply Nat.eqb_neq in H. rewrite H. reflexivity.
Qed.

(** Preparation succeeds exactly on a table whose score column exists, is
    numeric and is as long as the index; the result is the input with the
    column ['NSE'] set row by row. *)
Lemma add_NSE_category_eq df :
  add_NSE_category df
  = match lookup SCORE (columns df) with
    | None => Raise (Exn KeyError "DataFrame.__getitem__")
    | Some sc =>
        match floats sc with
        | None => Raise (Exn TypeError "Series comparison")
        | Some fs =>
            if Nat.eqb (List.length sc) (nrows df)
            then Ok (set_column df "NSE" (nse_column fs))
            else Raise (Exn IndexError "DataFrame.loc.__setitem__")
        end
    end.
Proof.
  unfold add_NSE_category, setitem_scalar, series_gt, series_le.
  rewrite getitem_score_after_nse. unfold getitem at 1 2.
  destruct (lookup SCORE (columns df)) as [sc|] eqn:Esc; [|reflexivity].
  cbn [bind]. rewrite !compare_scalar_floats.
  destruct (floats sc) as [fs|] eqn:Efs; [|reflexivity].
  cbn [bind]. pose proof (floats_length _ Efs) as Hlen.
  rewrite series_and_map.
  destruct (Nat.eqb (List.length sc) (nrows df)) eqn:En.
  - apply Nat.eqb_eq in En. rewrite <- En, <- Hlen, repeat_as_map.
    assert (Hn : List.length fs = nrows df) by congruence.
    rewrite (loc_set_nse _ _ _ _ _ Hn). cbn [bind].
    rewrite getitem_score_after_nse. unfold getitem at 1 2.
    rewrite Esc. cbn [bind]. rewrite !compare_scalar_floats, Efs.
    cbn [bind]. rewrite series_and_map.
    rewrite (loc_set_nse _ _ _ _ _ Hn). cbn [bind].
    rewrite getitem_score_after_nse. unfold getitem.
    rewrite Esc. cbn [bind]. rewrite !compare_scalar_floats, Efs.
    cbn [bind]. rewrite (loc_set_nse _ _ _ _ _ Hn).
    do 2 f_equal. unfold nse_column. apply map_ext. intros s.
    unfold row_label.
    destruct (Float64.gt s Float64.c08); auto.
    destruct (Float64.gt s Float64.c07 && Float64.le s Float64.c08); auto.
    destruct (Float64.gt s Float64.c05 && Float64.le s Float64.c07); auto.
  - apply Nat.eqb_neq in En. rewrite loc_set_bad_length; [reflexivity|].
    cbn [nrows set_column]. rewrite length_map. congruence.
Qed.

Lemma add_NSE_category_inv df df' :
  add_NSE_category df = Ok df' ->
  exists sc fs,
    lookup SCORE (columns df) = Some sc /\ floats sc = Some fs /\
    List.length fs = nrows df /\
    df' = set_column df "NSE" (nse_column fs).
Proof.
  rewrite add_NSE_category_eq.
  destruct (lookup SCORE (columns df)) as [sc|]; [|discriminate].
  destruct (floats sc) as [fs|] eqn:Efs; [|discriminate].
  destruct (Nat.eqb (List.length sc) (nrows df)) eqn:En; [|discriminate].
  intros [= <-]. exists sc, fs. repeat split; auto.
  apply Nat.eqb_eq in En. rewrite (floats_length _ Efs). exact En.
Qed.

Lemma cell_at_nse df fs i :
  cell_at (set_column df "NSE" (nse_column fs)) "NSE" i
  = option_map (fun s => CStr (row_label s)) (nth_error fs i).
Proof.
  unfold cell_at. cbn [columns set_column].
  rewrite lookup_replace_same. unfold nse_column.
  apply nth_error_map.
Qed.

Lemma labels_distinct : NoDup labels.
Proof.
  unfold labels. repeat constructor; simpl; intuition discriminate.
Qed.

Lemma wf_column_length df name c :
  wf_frame df = true -> lookup name (columns df) = Some c ->
  List.length c = nrows df.
Proof.
  unfold wf_frame. intros H. apply andb_true_iff in H as [H _].
  revert H. generalize (nrows df) as n.
  induction (columns df) as [| [m old] t IH]; simpl; intros n H Hl.
  - discriminate.
  - apply andb_true_iff in H as [H1 H2].
    destruct (String.eqb m name).
    + injection Hl as <-. apply Nat.eqb_eq. exact H1.
    + eauto.
Qed.

(* ------------------------------------------------------------------ *)
(** ** Claims about the derived category *)

(** C1. For every quality score [s] found in a row of the station table,
    the derived category of that row is one of the four labels, and it is
    assigned by the thresholds: [s <= 0.5] gives "Not Satisfactory",
    [0.5 < s <= 0.7] gives "Satisfactory", [0.7 < s <= 0.8] gives "Good",
    [s > 0.8] gives "Very Good"; the boundary values 0.5, 0.7 and 0.8 fall
    into the lower bucket.  (The labels carry the text of the source, which
    appends the range to the name.) *)
Theorem category_by_threshold
    (df df' : DataFrame) (i : nat) (c : cell) (s : spec_float) :
  add_NSE_category df = Ok df' ->
  cell_at df SCORE i = Some c ->
  as_float c = Some s ->
  exists lab,
    cell_at df' "NSE" i = Some (CStr lab) /\
    In lab labels /\ NoDup labels /\
    (Float64.le s Float64.c05 = true -> lab = NOT_SATISFACTORY) /\
    (Float64.gt s Float64.c05 = true -> Float64.le s Float64.c07 = true ->
       lab = SATISFACTORY) /\
    (Float64.gt s Float64.c07 = true -> Float64.le s Float64.c08 = true ->
       lab = GOOD) /\
    (Float64.gt s Float64.c08 = true -> lab = VERY_GOOD) /\
    (s = Float64.c05 -> lab = NOT_SATISFACTORY) /\
    (s = Float64.c07 -> lab = SATISFACTORY) /\
    (s = Float64.c08 -> lab = GOOD).
Proof.
  intros Hok Hc Hs.
  destruct (add_NSE_category_inv _ Hok) as (sc & fs & Hsc & Hfs & Hlen & ->).
  unfold cell_at in Hc. rewrite Hsc in Hc.
  exists (row_label s). rewrite cell_at_nse.
  rewrite (floats_nth _ _ Hfs Hc Hs). split; [reflexivity|].
  split; [apply row_label_in_labels|].
  split; [apply labels_distinct|].
  split; [apply row_label_low|].
  split; [apply row_label_satisfactory|].
  split; [apply row_label_good|].
  split; [apply row_label_very_good|].
  repeat split; intros ->; reflexivity.
Qed.

Lemma category_by_threshold_witness :
  exists lab,
    cell_at
      (set_column sample_table "NSE"
         (nse_column [Float64.c05; Float64.c07; Float64.c08; S754_nan;
                      Float64.of_Z 1;
                      S754_finite true 4503599627370496 (-52)]))
      "NSE" 1 = Some (CStr lab) /\
    lab = SATISFACTORY.
Proof.
  destruct (@category_by_threshold sample_table _ 1 (CFloat Float64.c07)
              Float64.c07 eq_refl eq_refl eq_refl)
    as (lab & Hcell & _ & _ & _ & _ & _ & _ & _ & H7 & _).
  exists lab. split; [exact Hcell | exact (H7 eq_refl)].
Defined.

(** C9. The categorisation is total on numeric score columns, NaN included:
    on a table whose score column exists and is numeric the preparation
    succeeds, every row gets one of the four labels, and a row whose score
    is NaN keeps the default label "Not Satisfactory". *)
Theorem categorization_total_with_nan (df : DataFrame) (sc : list cell) :
  wf_frame df = true ->
  getitem df SCORE = Ok sc ->
  numeric sc = true ->
  exists df',
    add_NSE_category df = Ok df' /\
    (forall i, i < nrows df ->
       exists lab, cell_at df' "NSE" i = Some (CStr lab) /\ In lab labels) /\
    (forall i, nth_error sc i = Some (CFloat S754_nan) ->
       cell_at df' "NSE" i = Some (CStr NOT_SATISFACTORY)).
Proof.
  intros Hwf Hget Hnum. unfold getitem in Hget.
  destruct (lookup SCORE (columns df)) as [sc0|] eqn:Esc; [|discriminate].
  injection Hget as ->.
  destruct (floats_numeric _ Hnum) as [fs Hfs].
  pose proof (wf_column_length _ _ Hwf Esc) as Hlen.
  exists (set_column df "NSE" (nse_column fs)).
  split; [|split].
  - rewrite add_NSE_category_eq, Esc, Hfs, Hlen, Nat.eqb_refl. reflexivity.
  - intros i Hi. rewrite cell_at_nse.
    destruct (nth_error fs i) as [s|] eqn:En.
    + exists (row_label s). split; [reflexivity | apply row_label_in_labels].
    + apply nth_error_None in En. rewrite (floats_length _ Hfs) in En. lia.
  - intros i Hi. rewrite cell_at_nse.
    rewrite (floats_nth _ _ Hfs Hi eq_refl). reflexivity.
Qed.

Lemma categorization_total_with_nan_witness :
  exists df',
    add_NSE_category sample_table = Ok df' /\
    cell_at df' "NSE" 3 = Some (CStr NOT_SATISFACTORY).
Proof.
  destruct (@categorization_total_with_nan sample_table sample_scores
              eq_refl eq_refl eq_refl) as (df' & Hok & _ & Hnan).
  exists df'. split; [exact Hok | exact (Hnan 3 eq_refl)].
Defined.

(** C8, as the code has it.  Whenever the preparation succeeds, the output
    has the same number of rows, every column other than ['NSE'] is the
    input's column, value for value and in the same order, and the column
    names are the input's with ['NSE'] added at the end unless the input
    already had a column of that name; ['NSE'] itself holds one label per
    row.  (A column named ['NSE'] in the input is overwritten.) *)
Theorem preparation_frame (df df' : DataFrame) :
  add_NSE_category df = Ok df' ->
  nrows df' = nrows df /\
  (forall name, name <> "NSE" -> getitem df' name = getitem df name) /\
  column_names df' = names_after "NSE" (column_names df) /\
  (exists nse, getitem df' "NSE" = Ok nse /\ List.length nse = nrows df /\
               Forall (fun c => exists lab, c = CStr lab /\ In lab labels) nse).
Proof.
  intros Hok.
  destruct (add_NSE_category_inv _ Hok) as (sc & fs & Hsc & Hfs & Hlen & ->).
  split; [reflexivity|]. split; [|split].
  - intros name Hn. unfold getitem. cbn [columns set_column].
    rewrite (lookup_replace_other _ _ Hn). reflexivity.
  - unfold column_names. cbn [columns set_column]. apply names_replace.
  - exists (nse_column fs). unfold getitem. cbn [columns set_column].
    rewrite lookup_replace_same. split; [reflexivity|].
    unfold nse_column. rewrite length_map. split; [exact Hlen|].
    apply Forall_forall. intros c Hc. apply in_map_iff in Hc as (s & <- & _).
    exists (row_label s). split; [reflexivity | apply row_label_in_labels].
Qed.

Lemma preparation_frame_witness :
  exists df',
    add_NSE_category sample_table = Ok df' /\
    nrows df' = 6 /\
    getitem df' "gauge_id" = getitem sample_table "gauge_id" /\
    column_names df' = ["gauge_id"; SCORE; "NSE"].
Proof.
  eexists. split; [reflexivity|].
  destruct (@preparation_frame sample_table _ eq_refl)
    as (Hn & Hcol & Hnames & _).
  split; [exact Hn|]. split; [apply Hcol; discriminate | exact Hnames].
Defined.

(** C8 as stated fails on a table that already has a column ['NSE']: that
    pre-existing column does not keep its values, and no column is added. *)
Lemma preexisting_NSE_column_overwritten :
  exists df',
    add_NSE_category relabelled_table = Ok df' /\
    In "NSE" (column_names relabelled_table) /\
    getitem df' "NSE" <> getitem relabelled_table "NSE" /\
    List.length (columns df') = List.length (columns relabelled_table).
Proof.
  eexists. split; [reflexivity|]. split; [simpl; auto|].
  split; [discriminate | reflexivity].
Qed.

(* ------------------------------------------------------------------ *)
(** ** Grouping rows by colour value *)

Lemma sf_eqb_eq x y : sf_eqb x y = true -> x = y.
Proof.
  destruct x as [a | a | | a m e], y as [b | b | | b n f];
    simpl; try discriminate; auto.
  - intros H. apply Bool.eqb_prop in H. congruence.
  - intros H. apply Bool.eqb_prop in H. congruence.
  - intros H. apply andb_true_iff in H as [H He].
    apply andb_true_iff in H as [Hs Hm].
    apply Bool.eqb_prop in Hs. apply Pos.eqb_eq in Hm. apply Z.eqb_eq in He.
    congruence.
Qed.

Lemma cell_eqb_eq a b : cell_eqb a b = true -> a = b.
Proof.
  destruct a, b; simpl; try discriminate; intros H.
  - f_equal. apply sf_eqb_eq. exact H.
  - f_equal. apply Z.eqb_eq. exact H.
  - f_equal. apply String.eqb_eq. exact H.
  - f_equal. apply Z.eqb_eq. exact H.
Qed.

Lemma ungroup_add k p gs :
  Permutation (ungroup (add_to_group k p gs)) (ungroup gs ++ [(k, p)]).
Proof.
  induction gs as [| [k' ps] t IH]; simpl.
  - reflexivity.
  - destruct (cell_eqb k' k) eqn:E.
    + apply cell_eqb_eq in E. subst k'. unfold ungroup. simpl.
      rewrite map_app. simpl. rewrite <- !app_assoc.
      apply Permutation_app_head. apply Permutation_app_comm.
    + unfold ungroup in *. simpl. rewrite <- app_assoc.
      apply Permutation_app_head. exact IH.
Qed.

Lemma ungroup_fold rows gs :
  Permutation
    (ungroup (fold_left (fun gs r => add_to_group (fst r) (snd r) gs) rows gs))
    (ungroup gs ++ rows).
Proof.
  revert gs. induction rows as [| [k p] t IH]; intros gs; simpl.
  - rewrite app_nil_r. reflexivity.
  - rewrite IH. rewrite ungroup_add. rewrite <- app_assoc. reflexivity.
Qed.

Lemma ungroup_group_rows rows : Permutation (ungroup (group_rows rows)) rows.
Proof. unfold group_rows. rewrite ungroup_fold. reflexivity. Qed.

Lemma add_to_group_keys (P : cell -> Prop) k p gs :
  P k -> Forall (fun g => P (fst g)) gs ->
  Forall (fun g => P (fst g)) (add_to_group k p gs).
Proof.
  intros Hk. induction 1 as [| [k' ps] t Hk' Ht IH]; simpl.
  - repeat constructor. exact Hk.
  - destruct (cell_eqb k' k); constructor; auto.
Qed.

Lemma fold_groups_keys (P : cell -> Prop) rows gs :
  Forall (fun r => P (fst r)) rows ->
  Forall (fun g => P (fst g)) gs ->
  Forall (fun g => P (fst g))
    (fold_left (fun gs r => add_to_group (fst r) (snd r) gs) rows gs).
Proof.
  intros Hrows. revert gs.
  induction Hrows as [| r t Hr Ht IH]; intros gs Hgs; simpl.
  - exact Hgs.
  - apply IH. apply add_to_group_keys; assumption.
Qed.

Lemma group_rows_keys (P : cell -> Prop) rows :
  Forall (fun r => P (fst r)) rows ->
  Forall (fun g => P (fst g)) (group_rows rows).
Proof. intros H. apply fold_groups_keys; [exact H | constructor]. Qed.

(* ------------------------------------------------------------------ *)
(** ** Traces of a colour column whose values are all in the colour map *)

Lemma discrete_traces_mapped sequence val_map (colf : cell -> string) gs :
  Forall (fun g => val_lookup (fst g) val_map = Some (colf (fst g))) gs ->
  discrete_traces sequence val_map gs
  = Ok (map (fun g => Trace (Some (fst g)) (Fixed (colf (fst g))) None (snd g))
            gs).
Proof.
  induction 1 as [| [k ps] t Hk Ht IH]; simpl.
  - reflexivity.
  - simpl in Hk. rewrite Hk, IH. reflexivity.
Qed.

Lemma fig_points_update_traces n f :
  fig_points (update_traces_marker_size n f) = fig_points f.
Proof.
  unfold fig_points, update_traces_marker_size. cbn [data].
  induction (data f) as [| t ts IH]; simpl; [reflexivity|].
  rewrite IH. reflexivity.
Qed.

Lemma fig_points_grouped (colf : cell -> string) gs z :
  fig_points
    (MkFigure
       (map (fun g => Trace (Some (fst g)) (Fixed (colf (fst g))) None (snd g))
            gs) z)
  = map (fun r => (snd r, Named (colf (fst r)))) (ungroup gs).
Proof.
  unfold fig_points, ungroup. cbn [data].
  induction gs as [| [k ps] t IH]; simpl; [reflexivity|].
  rewrite IH, map_app, map_map. reflexivity.
Qed.

Lemma label_is_mapped lab :
  In lab labels ->
  val_lookup (CStr lab)
    (map (fun kv => (CStr (fst kv), snd kv)) color_discrete_map)
  = Some (mapped_colour (CStr lab))
  /\ category_colour lab = Some (mapped_colour (CStr lab))
  /\ In (mapped_colour (CStr lab)) palette.
Proof.
  unfold labels. simpl.
  intros [<- | [<- | [<- | [<- | []]]]]; repeat split; vm_compute; auto 6.
Qed.

Lemma mapM_px_column df names :
  Forall (fun n => lookup n (columns df) <> None) names ->
  mapM (px_column df) names
  = Ok (map (fun n => match lookup n (columns df) with
                      | Some c => c | None => [] end) names).
Proof.
  induction 1 as [| n t Hn Ht IH]; simpl; [reflexivity|].
  unfold px_column at 1. destruct (lookup n (columns df)); [|congruence].
  rewrite IH. reflexivity.
Qed.

Lemma cell_at_nth df col c i :
  lookup col (columns df) = Some c -> List.length c = nrows df ->
  i < nrows df -> cell_at df col i = Some (nth i c NaN).
Proof.
  intros Hl Hlen Hi. unfold cell_at. rewrite Hl.
  apply nth_error_nth'. lia.
Qed.

Lemma nse_column_nth fs i :
  i < List.length fs ->
  exists s, nth_error fs i = Some s /\
            nth i (nse_column fs) NaN = CStr (row_label s).
Proof.
  intros Hi. destruct (nth_error fs i) as [s|] eqn:E.
  - exists s. split; [reflexivity|]. unfold nse_column.
    apply nth_error_nth. rewrite nth_error_map, E. reflexivity.
  - apply nth_error_None in E. lia.
Qed.

(* ------------------------------------------------------------------ *)
(** ** The map *)

(** C7. The map built from the prepared station table has exactly one point
    per row of the table: its points are, up to the order in which the
    traces list them, the rows' positions and hover values, each in the
    colour that [color_discrete_map] assigns to the row's derived category;
    so every colour is one of red, yellow, lightgreen and green. *)
Theorem map_points_match_rows
    (sequence : list string) (df df' : DataFrame) (f : Figure) :
  wf_frame df = true ->
  add_NSE_category df = Ok df' ->
  fig sequence df' = Ok f ->
  List.length (fig_points f) = nrows df' /\
  Permutation (map Some (fig_points f))
              (map (expected_point df') (seq 0 (nrows df'))) /\
  Forall (fun pc => exists c, snd pc = Named c /\ In c palette)
         (fig_points f).
Proof.
  intros Hwf Hok Hfig.
  destruct (add_NSE_category_inv _ Hok) as (sc & fs & Hsc & Hfs & Hlen & ->).
  unfold fig, scatter_mapbox, px_column in Hfig.
  cbn [columns set_column mapM] in Hfig. unfold px_column in Hfig.
  cbn [columns set_column] in Hfig.
  rewrite lookup_replace_same in Hfig.
  rewrite !lookup_replace_other in Hfig by discriminate.
  rewrite Hsc in Hfig.
  destruct (lookup "lat" (columns df)) as [lat_c|] eqn:Elat; [|discriminate].
  destruct (lookup "long" (columns df)) as [lon_c|] eqn:Elon; [|discriminate].
  destruct (lookup "gauge_id" (columns df)) as [gid_c|] eqn:Egid;
    [|discriminate].
  cbn [bind] in Hfig.
  set (rows := px_rows _ lat_c lon_c (nse_column fs) [gid_c; sc]) in Hfig.
  assert (Hrows : Forall (fun r => exists lab,
                                fst r = CStr lab /\ In lab labels) rows).
  { apply Forall_forall. intros r Hr. unfold rows, px_rows in Hr.
    apply in_map_iff in Hr as (i & <- & Hi). apply in_seq in Hi.
    cbn [nrows set_column] in Hi. cbn [fst].
    destruct (@nse_column_nth fs i) as (s & _ & Hs); [lia|].
    exists (row_label s). split; [exact Hs | apply row_label_in_labels]. }
  assert (Hexp : map (fun r => Some (snd r, Named (mapped_colour (fst r)))) rows
                 = map (expected_point (set_column df "NSE" (nse_column fs)))
                       (seq 0 (nrows df))).
  { unfold rows, px_rows. rewrite map_map. cbn [nrows set_column fst snd].
    apply map_ext_in. intros i Hi. apply in_seq in Hi.
    unfold expected_point.
    assert (Hc : forall col c, col <> "NSE" ->
               lookup col (columns df) = Some c ->
               cell_at (set_column df "NSE" (nse_column fs)) col i
               = Some (nth i c NaN)).
    { intros col c Hne Hl. apply cell_at_nth.
      - cbn [columns set_column]. rewrite lookup_replace_other; assumption.
      - apply (wf_column_length _ _ Hwf Hl).
      - cbn [nrows set_column]. lia. }
    rewrite (Hc "lat" lat_c), (Hc "long" lon_c), (Hc "gauge_id" gid_c),
      (Hc SCORE sc) by (assumption || discriminate).
    rewrite cell_at_nse.
    destruct (@nse_column_nth fs i) as (s & Es & Hs); [lia|].
    rewrite Es. cbn [option_map]. rewrite Hs.
    destruct (label_is_mapped (row_label_in_labels s)) as (_ & -> & _).
    reflexivity. }
  assert (Hpts : exists rows',
             Permutation rows' rows /\
             fig_points f
             = map (fun r => (snd r, Named (mapped_colour (fst r)))) rows').
  { destruct (numeric (nse_column fs)) eqn:Enum.
    - destruct fs as [| s fs']; [|discriminate].
      injection Hfig as <-. exists []. split.
      + unfold rows, px_rows. cbn [nrows set_column]. rewrite <- Hlen.
        reflexivity.
      + rewrite fig_points_update_traces. unfold rows, px_rows.
        cbn [nrows set_column]. rewrite <- Hlen. reflexivity.
    - rewrite (@discrete_traces_mapped _ _ mapped_colour) in Hfig.
      + cbn [bind] in Hfig. injection Hfig as <-.
        exists (ungroup (group_rows rows)).
        split; [apply ungroup_group_rows|].
        rewrite fig_points_update_traces. apply fig_points_grouped.
      + apply (@group_rows_keys
                 (fun k => val_lookup k _ = Some (mapped_colour k))).
        revert Hrows. apply Forall_impl.
        intros r (lab & -> & Hin). apply (label_is_mapped Hin). }
  destruct Hpts as (rows' & Hperm & Hpts).
  assert (Hn : List.length rows = nrows df).
  { unfold rows, px_rows. rewrite length_map, length_seq. reflexivity. }
  cbn [nrows set_column]. split; [|split].
  - rewrite Hpts, length_map, (Permutation_length Hperm). exact Hn.
  - rewrite <- Hexp, Hpts, map_map. apply Permutation_map. exact Hperm.
  - rewrite Hpts. apply Forall_forall. intros pc Hin.
    apply in_map_iff in Hin as (r & <- & Hr).
    apply (Permutation_in _ Hperm) in Hr.
    rewrite Forall_forall in Hrows. destruct (Hrows _ Hr) as (lab & E & Hlab).
    cbn [snd]. rewrite E. exists (mapped_colour (CStr lab)).
    split; [reflexivity | apply (label_is_mapped Hlab)].
Qed.



(* ------------------------------------------------------------------ *)
(** ** The registry of open figures *)

Lemma next_num_above reg n : In n (map fst reg) -> n < next_num reg.
Proof.
  unfold next_num. induction reg as [| [m g] t IH]; simpl; [tauto|].
  intros [<- | H]; [lia|]. specialize (IH H). lia.
Qed.

Lemma next_num_fresh reg : ~ In (next_num reg) (map fst reg).
Proof. intros H. apply next_num_above in H. lia. Qed.

Lemma update_fig_last n f reg g :
  ~ In n (map fst reg) ->
  update_fig n f (reg ++ [(n, g)]) = reg ++ [(n, f g)].
Proof.
  induction reg as [| [m h] t IH]; simpl; intros Hn.
  - rewrite Nat.eqb_refl. reflexivity.
  - destruct (Nat.eqb m n) eqn:E.
    + apply Nat.eqb_eq in E. tauto.
    + rewrite IH by tauto. reflexivity.
Qed.

Lemma gcf_last reg c : gcf (reg ++ [c]) = (Ok c, reg ++ [c]).
Proof. unfold gcf. rewrite rev_app_distr. reflexivity. Qed.

Lemma close_last n reg g :
  ~ In n (map fst reg) -> close n (reg ++ [(n, g)]) = (Ok tt, reg).
Proof.
  intros Hn. unfold close. f_equal. rewrite filter_app. simpl.
  rewrite Nat.eqb_refl. simpl. rewrite app_nil_r.
  induction reg as [| [m h] t IH]; simpl in *; [reflexivity|].
  destruct (Nat.eqb m n) eqn:E.
  - apply Nat.eqb_eq in E. tauto.
  - simpl. rewrite IH by tauto. reflexivity.
Qed.

(* ------------------------------------------------------------------ *)
(** ** Steps of a computation on the registry *)

Lemma mbind_step {A B} (m : M A) (k : A -> M B) reg a reg' :
  m reg = (Ok a, reg') -> mbind m k reg = k a reg'.
Proof. intros H. unfold mbind. rewrite H. reflexivity. Qed.

Lemma mbind_lift {A B} (r : result A) (k : A -> M B) reg :
  mbind (lift r) k reg
  = match r with Ok a => k a reg | Raise e => (Raise e, reg) end.
Proof. unfold mbind, lift. destruct r; reflexivity. Qed.

Lemma on_figure_last n f reg g :
  ~ In n (map fst reg) ->
  on_figure n f (reg ++ [(n, g)]) = (Ok tt, reg ++ [(n, f g)]).
Proof. intros H. unfold on_figure. rewrite update_fig_last; auto. Qed.

Section FigureSteps.
Variables (n : nat) (reg : registry).
Hypothesis fresh : ~ In n (map fst reg).
Variables (sz : option (nat * nat)) (ls : list Line) (t xl yl : string)
          (lg tg : bool).

Lemma ax_plot_last x y lbl col al :
  ax_plot n x y lbl col al (reg ++ [(n, MkMplFigure sz ls t xl yl lg tg)])
  = (Ok tt, reg ++ [(n, MkMplFigure sz (ls ++ [MkLine x y lbl col al])
                          t xl yl lg tg)]).
Proof. unfold ax_plot. rewrite on_figure_last; auto. Qed.

Lemma ax_set_title_last s :
  ax_set_title n s (reg ++ [(n, MkMplFigure sz ls t xl yl lg tg)])
  = (Ok tt, reg ++ [(n, MkMplFigure sz ls s xl yl lg tg)]).
Proof. unfold ax_set_title. rewrite on_figure_last; auto. Qed.

Lemma ax_set_xlabel_last s :
  ax_set_xlabel n s (reg ++ [(n, MkMplFigure sz ls t xl yl lg tg)])
  = (Ok tt, reg ++ [(n, MkMplFigure sz ls t s yl lg tg)]).
Proof. unfold ax_set_xlabel. rewrite on_figure_last; auto. Qed.

Lemma ax_set_ylabel_last s :
  ax_set_ylabel n s (reg ++ [(n, MkMplFigure sz ls t xl yl lg tg)])
  = (Ok tt, reg ++ [(n, MkMplFigure sz ls t xl s lg tg)]).
Proof. unfold ax_set_ylabel. rewrite on_figure_last; auto. Qed.

Lemma ax_legend_last :
  ax_legend n (reg ++ [(n, MkMplFigure sz ls t xl yl lg tg)])
  = (Ok tt, reg ++ [(n, MkMplFigure sz ls t xl yl true tg)]).
Proof. unfold ax_legend. rewrite on_figure_last; auto. Qed.

Lemma tight_layout_last :
  tight_layout (reg ++ [(n, MkMplFigure sz ls t xl yl lg tg)])
  = (Ok tt, reg ++ [(n, MkMplFigure sz ls t xl yl lg true)]).
Proof.
  unfold tight_layout.
  rewrite (@mbind_step _ _ _ _ _ _ _ (gcf_last reg _)).
  cbn [fst]. rewrite on_figure_last; auto.
Qed.

End FigureSteps.

(* ------------------------------------------------------------------ *)
(** ** Drawing the chart *)

Section Drawing.
Context {X : Externals}.

Lemma savefig_last n reg g :
  savefig (reg ++ [(n, g)])
  = (match png_stream g with
     | Ok body => Ok (png_signature ++ body)
     | Raise e => Raise e
     end, reg ++ [(n, g)]).
Proof.
  unfold savefig. rewrite (@mbind_step _ _ _ _ _ _ _ (gcf_last reg (n, g))).
  rewrite mbind_lift. cbn [snd]. destruct (png_stream g); reflexivity.
Qed.

(** Running [draw_chart] from a registry [reg], statement by statement:
    the figure it opens is the last of the registry and has a fresh number,
    so each statement acts on that figure. *)
Ltac draw_steps Hn :=
  unfold draw_chart, draw_result;
  unfold mbind at 1; unfold subplots at 1, new_figure;
  rewrite mbind_lift;
  destruct (getitem _ "date") as [x|e];
    [|first [reflexivity | discriminate]];
  rewrite mbind_lift;
  destruct (getitem _ "Observed Flow (mm/d)") as [y1|e];
    [|first [reflexivity | discriminate]];
  rewrite (@mbind_step _ _ _ _ _ _ _
             (@ax_plot_last _ _ Hn _ _ _ _ _ _ _ _ _ _ _ _));
  rewrite !mbind_lift;
  destruct (getitem _ "Simulated Flow (mm/d)") as [y2|e];
    [|first [reflexivity | discriminate]];
  rewrite (@mbind_step _ _ _ _ _ _ _
             (@ax_plot_last _ _ Hn _ _ _ _ _ _ _ _ _ _ _ _));
  rewrite (@mbind_step _ _ _ _ _ _ _
             (@ax_set_title_last _ _ Hn _ _ _ _ _ _ _ _));
  rewrite (@mbind_step _ _ _ _ _ _ _
             (@ax_set_xlabel_last _ _ Hn _ _ _ _ _ _ _ _));
  rewrite (@mbind_step _ _ _ _ _ _ _
             (@ax_set_ylabel_last _ _ Hn _ _ _ _ _ _ _ _));
  rewrite (@mbind_step _ _ _ _ _ _ _
             (@ax_legend_last _ _ Hn _ _ _ _ _ _ _));
  rewrite (@mbind_step _ _ _ _ _ _ _
             (@tight_layout_last _ _ Hn _ _ _ _ _ _ _));
  unfold mbind at 1; rewrite savefig_last; cbn [bind app];
  destruct (png_stream _) as [body|e];
    [|first [reflexivity | discriminate]];
  rewrite (@mbind_step _ _ _ _ _ _ _ (@close_last _ _ _ Hn)).

(** The fragment that drawing returns does not depend on the figures that
    are open. *)
Lemma draw_chart_fst gauge_id df reg :
  fst (draw_chart gauge_id df reg) = draw_result gauge_id df.
Proof.
  pose proof (next_num_fresh reg) as Hn. draw_steps Hn. reflexivity.
Qed.

(** A drawing that succeeds closes its figure again. *)
Lemma draw_chart_snd gauge_id df reg frag :
  draw_result gauge_id df = Ok frag ->
  snd (draw_chart gauge_id df reg) = reg.
Proof.
  pose proof (next_num_fresh reg) as Hn. draw_steps Hn. reflexivity.
Qed.

End Drawing.

(* ------------------------------------------------------------------ *)
(** ** The handler, the registry aside *)

Section HandlerFacts.
Context {X : Externals}.

Lemma plot_gauge_fst results gauge_id reg :
  fst (plot_gauge results gauge_id reg) = plot_result results gauge_id.
Proof.
  unfold plot_gauge, plot_result. rewrite mbind_lift.
  destruct (chart_table results gauge_id) as [df|e]; [|reflexivity].
  apply draw_chart_fst.
Qed.

(** The figure is closed again when the body succeeds, and none is opened
    when the table of the chart cannot be built. *)
Lemma plot_gauge_snd results gauge_id reg :
  (exists frag, plot_result results gauge_id = Ok frag) \/
  (exists e, chart_table results gauge_id = Raise e) ->
  snd (plot_gauge results gauge_id reg) = reg.
Proof.
  unfold plot_gauge, plot_result. rewrite mbind_lift.
  destruct (chart_table results gauge_id) as [df|e]; [|reflexivity].
  intros [[frag H] | [e H]]; [|discriminate].
  apply (draw_chart_snd _ _ _ H).
Qed.

Lemma try_except_fst {A} (m : M A) (h : exn -> A) reg :
  fst (try_except m (fun e => ret (h e)) reg)
  = match fst (m reg) with
    | Ok a => Ok a
    | Raise e => Ok (h e)
    end.
Proof.
  unfold try_except, ret. destruct (m reg) as [[a|e] reg']; reflexivity.
Qed.

Lemma try_except_snd {A} (m : M A) (h : exn -> A) reg :
  snd (try_except m (fun e => ret (h e)) reg) = snd (m reg).
Proof.
  unfold try_except, ret. destruct (m reg) as [[a|e] reg']; reflexivity.
Qed.

(** After a successful extraction the handler is the [try] statement. *)
Lemma update_plot_extracted results clickData gauge_id reg :
  truthy clickData = true ->
  extract_gauge_id clickData = Ok gauge_id ->
  update_plot results clickData reg
  = try_except (plot_gauge results gauge_id)
               (fun e => ret (Div (error_text gauge_id e))) reg.
Proof.
  intros Ht He. unfold update_plot. rewrite Ht. cbn [negb].
  rewrite mbind_lift, He. reflexivity.
Qed.

Lemma update_plot_extraction_fails results clickData e reg :
  truthy clickData = true ->
  extract_gauge_id clickData = Raise e ->
  update_plot results clickData reg = (Raise e, reg).
Proof.
  intros Ht He. unfold update_plot. rewrite Ht. cbn [negb].
  rewrite mbind_lift, He. reflexivity.
Qed.

Lemma update_plot_falsy results clickData reg :
  truthy clickData = false ->
  update_plot results clickData reg = (Ok (Div PLACEHOLDER), reg).
Proof. intros Ht. unfold update_plot. rewrite Ht. reflexivity. Qed.

(** A payload from which line 98 extracts an identifier is a non-empty
    mapping, hence truthy. *)
Lemma extracted_truthy clickData gauge_id :
  extract_gauge_id clickData = Ok gauge_id -> truthy clickData = true.
Proof.
  unfold extract_gauge_id. destruct clickData as [| b | z | x | s | l | d];
    try discriminate.
  destruct d; [discriminate | reflexivity].
Qed.

(** The fragment does not depend on the registry. *)
Lemma update_plot_fst results clickData reg :
  fst (update_plot results clickData reg)
  = if negb (truthy clickData) then Ok (Div PLACEHOLDER)
    else match extract_gauge_id clickData with
         | Raise e => Raise e
         | Ok g =>
             match plot_result results g with
             | Ok frag => Ok frag
             | Raise e => Ok (Div (error_text g e))
             end
         end.
Proof.
  destruct (truthy clickData) eqn:Ht; cbn [negb].
  - destruct (extract_gauge_id clickData) as [g|e] eqn:He.
    + rewrite (update_plot_extracted _ _ _ Ht He), try_except_fst,
        plot_gauge_fst. reflexivity.
    + rewrite (update_plot_extraction_fails _ _ _ Ht He). reflexivity.
  - rewrite (update_plot_falsy _ _ _ Ht). reflexivity.
Qed.

(** What the [try] body returns is an image. *)
Lemma plot_result_image results gauge_id frag :
  plot_result results gauge_id = Ok frag -> is_image frag = true.
Proof.
  unfold plot_result.
  destruct (chart_table results gauge_id) as [df|e']; [|discriminate].
  unfold draw_result. cbn [bind].
  destruct (getitem df "date"); [|discriminate].
  destruct (getitem df "Observed Flow (mm/d)"); [|discriminate].
  destruct (getitem df "Simulated Flow (mm/d)"); [|discriminate].
  cbn [bind]. destruct (png_stream _); [|discriminate].
  cbn [bind]. intros [= <-]. reflexivity.
Qed.

Lemma error_text_contains gauge_id e :
  contains (py_str gauge_id) (error_text gauge_id e).
Proof.
  exists "Error loading streamflow for gauge ", (": " ++ exn_text e)%string.
  reflexivity.
Qed.

Lemma error_text_not_placeholder gauge_id e :
  error_text gauge_id e <> PLACEHOLDER.
Proof. unfold error_text, PLACEHOLDER. simpl. discriminate. Qed.

End HandlerFacts.

(* ------------------------------------------------------------------ *)
(** ** Claims about the handler *)

(** C5. Whatever the datasets hold, a null click event gives the same
    static placeholder fragment, and the handler does nothing else. *)
Theorem idle_placeholder
    (X X' : Externals) (results results' : store) (reg reg' : registry) :
  @update_plot X results PNone reg = (Ok (Div PLACEHOLDER), reg) /\
  fst (@update_plot X results PNone reg)
  = fst (@update_plot X' results' PNone reg').
Proof. split; reflexivity. Qed.

(** C10. The handler returns the placeholder exactly when the payload is
    falsy; this includes the empty mapping, not only the null event.  A
    truthy payload goes on to the extraction of the identifier: if that
    raises the handler raises, otherwise the [try] statement runs with the
    identifier. *)
Theorem placeholder_iff_falsy
    (X : Externals) (results : store) (clickData : payload) (reg : registry) :
  (fst (update_plot results clickData reg) = Ok (Div PLACEHOLDER)
   <-> truthy clickData = false) /\
  fst (update_plot results (PDict []) reg) = Ok (Div PLACEHOLDER) /\
  (truthy clickData = true ->
   match extract_gauge_id clickData with
   | Raise e => update_plot results clickData reg = (Raise e, reg)
   | Ok g =>
       update_plot results clickData reg
       = try_except (plot_gauge results g)
                    (fun e => ret (Div (error_text g e))) reg
   end).
Proof.
  split; [|split].
  - rewrite update_plot_fst. destruct (truthy clickData); cbn [negb].
    + split; [|discriminate].
      destruct (extract_gauge_id clickData) as [g|e]; [|discriminate].
      destruct (plot_result results g) as [frag|e] eqn:Ep; intros H.
      * injection H as ->. apply plot_result_image in Ep. discriminate.
      * exfalso. apply (@error_text_not_placeholder X g e). congruence.
    + split; reflexivity.
  - reflexivity.
  - intros Ht. destruct (extract_gauge_id clickData) as [g|e] eqn:He.
    + apply update_plot_extracted; assumption.
    + apply update_plot_extraction_fails; assumption.
Qed.

(** C2, as the code has it.  Once line 98 has extracted an identifier, the
    handler returns a fragment whatever happens: the image when the [try]
    body succeeds, and otherwise the text that names the identifier and the
    message of the failure of the lookup in the store, of the extraction of
    the series or of the drawing. *)
Theorem failures_after_extraction_are_caught
    (X : Externals) (results : store) (clickData gauge_id : payload)
    (reg : registry) :
  extract_gauge_id clickData = Ok gauge_id ->
  exists frag reg',
    update_plot results clickData reg = (Ok frag, reg') /\
    match fst (plot_gauge results gauge_id reg) with
    | Ok img => frag = img
    | Raise e =>
        frag = Div ("Error loading streamflow for gauge "
                    ++ py_str gauge_id ++ ": " ++ exn_text e)%string
    end.
Proof.
  intros He. pose proof (extracted_truthy _ He) as Ht.
  rewrite (update_plot_extracted _ _ _ Ht He).
  unfold try_except, ret.
  destruct (plot_gauge results gauge_id reg) as [[img|e] reg'];
    eexists; eexists; split; reflexivity.
Qed.

Lemma failures_after_extraction_are_caught_witness :
  exists frag reg',
    @update_plot toy_externals sample_results (click (PStr "nope")) []
    = (Ok frag, reg') /\
    frag = Div "Error loading streamflow for gauge nope: results[gauge_id]".
Proof.
  destruct (@failures_after_extraction_are_caught toy_externals sample_results
              (click (PStr "nope")) (PStr "nope") [] eq_refl)
    as (frag & reg' & Hrun & Hfrag).
  exists frag, reg'. split; [exact Hrun | exact Hfrag].
Defined.

(** C2 as stated fails: the extraction of the identifier stands before the
    [try], so a truthy payload without a first point makes the handler
    raise. *)
Lemma extraction_failure_propagates :
  truthy (PDict [("points", PList [])]) = true /\
  @update_plot toy_externals sample_results (PDict [("points", PList [])]) []
  = (Raise (Exn IndexError "list index out of range"), []).
Proof. split; reflexivity. Qed.

(** C4. A click that carries an identifier which no station of the store
    has gives a textual error fragment, not an image, and the text contains
    the identifier. *)
Theorem absent_station_gives_error
    (X : Externals) (results : store) (clickData gauge_id : payload)
    (reg : registry) :
  extract_gauge_id clickData = Ok gauge_id ->
  absent results gauge_id = true ->
  exists text,
    update_plot results clickData reg = (Ok (Div text), reg) /\
    contains (py_str gauge_id) text /\
    is_image (Div text) = false.
Proof.
  intros He Habs. pose proof (extracted_truthy _ He) as Ht.
  assert (Hc : exists e, chart_table results gauge_id = Raise e).
  { unfold chart_table, results_getitem. unfold absent in Habs.
    destruct gauge_id; cbn [bind]; eauto;
      destruct (station_key _) as [k|]; cbn [bind]; eauto;
      destruct (key_lookup k results); cbn [bind]; eauto; discriminate. }
  destruct Hc as [e Hc].
  exists (error_text gauge_id e). split; [|split].
  - rewrite (update_plot_extracted _ _ _ Ht He).
    rewrite (surjective_pairing (try_except _ _ _)).
    rewrite try_except_fst, try_except_snd, plot_gauge_fst.
    rewrite plot_gauge_snd by eauto.
    unfold plot_result. rewrite Hc. reflexivity.
  - apply error_text_contains.
  - reflexivity.
Qed.

Lemma absent_station_gives_error_witness :
  exists text,
    @update_plot toy_externals sample_results (click (PStr "nope")) []
    = (Ok (Div text), []) /\
    contains "nope" text.
Proof.
  destruct (@absent_station_gives_error toy_externals sample_results
              (click (PStr "nope")) (PStr "nope") [] eq_refl eq_refl)
    as (text & Hrun & Hin & _).
  exists text. split; [exact Hrun | exact Hin].
Defined.

(** The output of the handler is a function of the payload and the store.
    The fragment (or the exception) the handler gives for a payload does
    not depend on the figures pyplot has open; the store is only read.
    Hence a second invocation with the same payload, run after the first,
    gives the same output.  What the handler does to the open figures is
    the subject of [repeated_failure_leaves_figures_open] below. *)
Lemma handler_is_deterministic
    (X : Externals) (results : store) (clickData : payload)
    (reg reg' : registry) :
  fst (update_plot results clickData reg)
  = fst (update_plot results clickData reg') /\
  (let first := update_plot results clickData reg in
   let second := update_plot results clickData (snd first) in
   fst second = fst first).
Proof.
  split; [|cbv zeta]; rewrite !update_plot_fst; reflexivity.
Qed.

(* ------------------------------------------------------------------ *)
(** ** The table of the chart for a date x time_step dataset *)

Lemma items_map_item l : items (Axis (map Item l)) = Ok l.
Proof.
  unfold items. induction l as [| c t IH]; simpl; [reflexivity|].
  rewrite IH. reflexivity.
Qed.

Lemma last_map_nonempty {A B} (f : A -> B) (l : list A) (d : B) (d' : A) :
  l <> [] -> last (map f l) d = f (last l d').
Proof.
  induction l as [| a t IH]; [congruence|]. intros _.
  destruct t as [| b t']; [reflexivity|].
  change (last (map f (b :: t')) d = f (last (b :: t') d')).
  apply IH. discriminate.
Qed.

Lemma take_last_rows steps rows :
  Forall (fun r => List.length r = S steps) rows ->
  map (take_last 0) (map (fun r => Axis (map Item r)) rows)
  = map Item (map last_step rows).
Proof.
  intros H. rewrite !map_map. apply map_ext_in. intros r Hr.
  rewrite Forall_forall in H. specialize (H r Hr).
  unfold last_step. cbn [take_last].
  apply last_map_nonempty. intros ->. discriminate.
Qed.

Lemma results_getitem_found results gauge_id k station :
  station_key gauge_id = Some k ->
  key_lookup k results = Some station ->
  results_getitem results gauge_id = Ok station.
Proof.
  intros Hk Hl. unfold results_getitem.
  destruct gauge_id; try discriminate; rewrite Hk, Hl; reflexivity.
Qed.

Lemma chart_table_daily results gauge_id k station daily steps dates obs sim :
  station_key gauge_id = Some k ->
  key_lookup k results = Some station ->
  lookup "1D" station = Some daily ->
  lookup "xr" daily
  = Some (IDataset (daily_dataset (S steps) dates obs sim)) ->
  Forall (fun r => List.length r = S steps) obs ->
  Forall (fun r => List.length r = S steps) sim ->
  chart_table results gauge_id
  = Ok (Frame (List.length dates)
          [("date", dates);
           ("Observed Flow (mm/d)", map last_step obs);
           ("Simulated Flow (mm/d)", map last_step sim)]).
Proof.
  intros Hk Hl H1 Hx Hobs Hsim. unfold chart_table.
  rewrite (results_getitem_found _ _ Hk Hl). cbn [bind].
  unfold dict_getitem. rewrite H1. cbn [bind]. rewrite Hx. cbn [bind].
  unfold item_getitem, daily_dataset, matrix.
  set (n := List.length dates).
  set (dc := ("date", XVar [("date", n)] (Axis (map Item dates)))).
  set (tc := ("time_step", range_variable "time_step" (S steps))).
  set (tc' := ("time_step",
               XVar [] (take_last 0 (values (range_variable "time_step"
                                               (S steps)))))).
  change (ds_getitem _ "flow_mm_d_obs")
    with (Ok (MkDataArray
                (XVar [("date", n); ("time_step", S steps)]
                   (Axis (map (fun r => Axis (map Item r)) obs)))
                [dc; tc])).
  change (ds_getitem _ "flow_mm_d_sim")
    with (Ok (MkDataArray
                (XVar [("date", n); ("time_step", S steps)]
                   (Axis (map (fun r => Axis (map Item r)) sim)))
                [dc; tc])).
  cbn [bind].
  change (isel_last "time_step" (MkDataArray (XVar _ (Axis ?rows)) _))
    with (Ok (MkDataArray
                (XVar [("date", n)] (Axis (map (take_last 0) rows)))
                [dc; tc'])).
  cbn [bind].
  change (isel_last "time_step" (MkDataArray (XVar _ (Axis ?rows)) _))
    with (Ok (MkDataArray
                (XVar [("date", n)] (Axis (map (take_last 0) rows)))
                [dc; tc'])).
  cbn [bind].
  rewrite (take_last_rows Hobs), (take_last_rows Hsim).
  change (da_getitem _ "date")
    with (Ok (MkDataArray (snd dc) [dc; tc'])).
  cbn [bind da_values variable]. subst dc. cbn [snd].
  unfold DataFrame_of_arrays.
  cbn [raw_lengths ndim dims List.length bind forallb andb].
  rewrite Nat.eqb_refl. cbn [andb mapM snd fst frame_column values bind].
  rewrite !items_map_item. reflexivity.
Qed.

Lemma b64encode_nonempty bs : bs <> [] -> Base64.b64encode bs <> "".
Proof.
  destruct bs as [| a [| b [| c rest]]]; [congruence | | |];
    intros _; simpl; discriminate.
Qed.

(** C3, as the code has it.  For a station of the store whose daily dataset
    holds the observed and the simulated flow as date x time_step arrays
    with at least one time step, and whose chart matplotlib can draw, a
    click returns an image fragment with a non-empty base64 PNG payload.
    The chart has one observed/simulated pair per date, not a single pair:
    [isel(time_step=-1)] takes the last entry along time_step and keeps the
    whole date axis. *)
Theorem chart_plots_last_step_of_every_date
    (X : Externals) (results : store) (clickData gauge_id : payload) (k : key)
    (station : list (string * list (string * item)))
    (daily : list (string * item)) (steps : nat) (dates : list cell)
    (obs sim : list (list cell)) (body : list byte) (reg : registry) :
  extract_gauge_id clickData = Ok gauge_id ->
  station_key gauge_id = Some k ->
  key_lookup k results = Some station ->
  lookup "1D" station = Some daily ->
  lookup "xr" daily
  = Some (IDataset (daily_dataset (S steps) dates obs sim)) ->
  Forall (fun r => List.length r = S steps) obs ->
  Forall (fun r => List.length r = S steps) sim ->
  List.length obs = List.length dates ->
  List.length sim = List.length dates ->
  png_stream (chart_of gauge_id dates (map last_step obs) (map last_step sim))
  = Ok body ->
  update_plot results clickData reg
  = (Ok (Img ("data:image/png;base64,"
              ++ Base64.b64encode (png_signature ++ body))%string), reg) /\
  Base64.b64encode (png_signature ++ body) <> "" /\
  chart_table results gauge_id
  = Ok (Frame (List.length dates)
          [("date", dates);
           ("Observed Flow (mm/d)", map last_step obs);
           ("Simulated Flow (mm/d)", map last_step sim)]) /\
  Forall (fun l => List.length (xdata l) = List.length dates /\
                   List.length (ydata l) = List.length dates)
         (lines (chart_of gauge_id dates (map last_step obs)
                          (map last_step sim))).
Proof.
  intros He Hk Hl H1 Hx Hobs Hsim Lobs Lsim Hpng.
  pose proof (chart_table_daily _ _ Hk Hl H1 Hx Hobs Hsim) as Htab.
  pose proof (extracted_truthy _ He) as Ht.
  assert (Hres : plot_result results gauge_id
                 = Ok (Img ("data:image/png;base64,"
                            ++ Base64.b64encode
                                 (png_signature ++ body))%string)).
  { unfold plot_result. rewrite Htab. cbn [bind]. unfold draw_result.
    change (getitem _ "date") with (Ok (A:=list cell) dates).
    change (getitem _ "Observed Flow (mm/d)")
      with (Ok (A:=list cell) (map last_step obs)).
    change (getitem _ "Simulated Flow (mm/d)")
      with (Ok (A:=list cell) (map last_step sim)).
    cbn [bind]. unfold chart_of in Hpng. rewrite Hpng. reflexivity. }
  split; [|split; [|split]].
  - rewrite (update_plot_extracted _ _ _ Ht He).
    rewrite (surjective_pairing (try_except _ _ _)).
    rewrite try_except_fst, try_except_snd, plot_gauge_fst.
    rewrite plot_gauge_snd by eauto. rewrite Hres. reflexivity.
  - apply b64encode_nonempty. discriminate.
  - exact Htab.
  - unfold chart_of. cbn [lines]. repeat constructor; cbn [xdata ydata];
      rewrite ?length_map; auto.
Qed.

Lemma chart_plots_last_step_of_every_date_witness :
  @update_plot toy_externals sample_results (click (PStr "01013500")) []
  = (Ok (Img "data:image/png;base64,iVBORw0KGgoA"), []) /\
  chart_table sample_results (PStr "01013500")
  = Ok (Frame 2
          [("date", [CDate 0; CDate 86400000000000]);
           ("Observed Flow (mm/d)", [CFloat Float64.c05; CFloat Float64.c07]);
           ("Simulated Flow (mm/d)",
            [CFloat Float64.c07; CFloat Float64.c08])]).
Proof.
  assert (Hrows : forall a b : cell,
             Forall (fun r => List.length r = 1) [[a]; [b]])
    by (intros; repeat constructor).
  destruct (@chart_plots_last_step_of_every_date toy_externals sample_results
              (click (PStr "01013500")) (PStr "01013500") (KStr "01013500")
              (station_with two_days) [("xr", IDataset two_days)] 0
              [CDate 0; CDate 86400000000000]
              [[CFloat Float64.c05]; [CFloat Float64.c07]]
              [[CFloat Float64.c07]; [CFloat Float64.c08]]
              [x00] []
              eq_refl eq_refl eq_refl eq_refl eq_refl
              (Hrows _ _) (Hrows _ _) eq_refl eq_refl eq_refl)
    as (Hrun & _ & Htab & _).
  split; [exact Hrun | exact Htab].
Defined.

(** C3 as stated fails.  The station "01013500" is in the store with two
    dates and one time step: the handler returns an image, and the chart
    behind it has two observed/simulated pairs.  The station "01022500" is
    in the store with a series of three time steps and nothing else: after
    [isel] every column is a single value, pandas refuses to build the
    table, and the handler returns the error text instead of an image. *)
Lemma chart_is_not_a_single_pair :
  (exists df src,
     chart_table sample_results (PStr "01013500") = Ok df /\
     nrows df = 2 /\
     getitem df "Observed Flow (mm/d)"
     = Ok [CFloat Float64.c05; CFloat Float64.c07] /\
     @update_plot toy_externals sample_results (click (PStr "01013500")) []
     = (Ok (Img src), [])) /\
  key_lookup (KStr "01022500") sample_results
  = Some (station_with three_steps) /\
  (exists text,
     @update_plot toy_externals sample_results (click (PStr "01022500")) []
     = (Ok (Div text), [])).
Proof.
  split; [|split].
  - eexists. eexists. repeat split; reflexivity.
  - reflexivity.
  - eexists. reflexivity.
Qed.

(* ------------------------------------------------------------------ *)
(** ** Instances *)

Lemma map_points_match_rows_witness :
  exists df' f,
    add_NSE_category sample_map_table = Ok df' /\
    fig plotly_colorway df' = Ok f /\
    List.length (fig_points f) = 3.
Proof.
  eexists. eexists. split; [reflexivity|]. split; [reflexivity|].
  exact (proj1 (@map_points_match_rows plotly_colorway sample_map_table _ _
                  eq_refl eq_refl eq_refl)).
Defined.

(* ================================================================== *)
(** * Further properties *)

(* ------------------------------------------------------------------ *)
(** ** Order on float64, continued *)

Lemma SFcompare_None x y :
  SFcompare x y = None -> x = S754_nan \/ y = S754_nan.
Proof.
  destruct x as [sx | sx | | sx mx ex], y as [sy | sy | | sy my ey];
    simpl; auto; try discriminate;
    try destruct sx; try destruct sy; discriminate.
Qed.

Lemma gt_not_nan s c : Float64.gt s c = true -> s <> S754_nan.
Proof.
  intros H ->. unfold Float64.gt, SFltb in H.
  destruct c; discriminate.
Qed.

(** Away from NaN, [s > c] or [s <= c]. *)
Lemma not_gt_le s c :
  s <> S754_nan -> c <> S754_nan ->
  Float64.gt s c = false -> Float64.le s c = true.
Proof.
  intros Hs Hc. unfold Float64.gt, Float64.le, SFltb, SFleb.
  rewrite (SFcompare_antisym s c).
  destruct (SFcompare s c) as [[]|] eqn:E; cbn; try congruence.
  apply SFcompare_None in E. tauto.
Qed.

(** Above a positive threshold, and so is everything that is not below. *)
Lemma gt_le_trans s1 s2 m e :
  Float64.gt s1 (S754_finite false m e) = true ->
  Float64.le s1 s2 = true ->
  Float64.gt s2 (S754_finite false m e) = true.
Proof.
  unfold Float64.gt, Float64.le, SFltb, SFleb.
  destruct s1 as [a | a | | a m1 e1], s2 as [b | b | | b m2 e2];
    try destruct a; try destruct b; cbn [SFcompare];
    try discriminate; try reflexivity.
  change (Pos.compare_cont Eq ?x ?y) with (Pos.compare x y).
  destruct (Z.compare_spec e e1), (Z.compare_spec e1 e2),
    (Z.compare_spec e e2); try discriminate; try reflexivity; try lia;
    subst;
    destruct (Pos.compare_spec m m1), (Pos.compare_spec m1 m2),
      (Pos.compare_spec m m2); try discriminate; try reflexivity; lia.
Qed.

Lemma row_label_classify s : row_label s = classify s.
Proof.
  unfold row_label, classify.
  destruct (Float64.gt s Float64.c08) eqn:E8; [reflexivity|].
  destruct (Float64.gt s Float64.c07) eqn:E7.
  - rewrite (@not_gt_le _ _ (@gt_not_nan _ _ E7)) by (discriminate || exact E8).
    reflexivity.
  - cbn [andb].
    destruct (Float64.gt s Float64.c05) eqn:E5; [|reflexivity].
    rewrite (@not_gt_le _ _ (@gt_not_nan _ _ E5)) by (discriminate || exact E7).
    reflexivity.
Qed.

Lemma classify_monotone s1 s2 :
  Float64.le s1 s2 = true -> rank (classify s1) <= rank (classify s2).
Proof.
  intros Hle. unfold classify.
  destruct (Float64.gt s1 Float64.c08) eqn:A8.
  { assert (B : Float64.gt s2 Float64.c08 = true)
      by exact (@gt_le_trans s1 s2 _ _ A8 Hle).
    rewrite B. apply Nat.le_refl. }
  destruct (Float64.gt s1 Float64.c07) eqn:A7.
  { assert (B : Float64.gt s2 Float64.c07 = true)
      by exact (@gt_le_trans s1 s2 _ _ A7 Hle).
    rewrite B. destruct (Float64.gt s2 Float64.c08); vm_compute; lia. }
  destruct (Float64.gt s1 Float64.c05) eqn:A5.
  { assert (B : Float64.gt s2 Float64.c05 = true)
      by exact (@gt_le_trans s1 s2 _ _ A5 Hle).
    rewrite B.
    destruct (Float64.gt s2 Float64.c08), (Float64.gt s2 Float64.c07);
      vm_compute; lia. }
  change (rank NOT_SATISFACTORY) with 0. lia.
Qed.

(* ------------------------------------------------------------------ *)
(** ** Dataset preparation, continued *)

Lemma floats_not_numeric col : numeric col = false -> floats col = None.
Proof.
  unfold numeric. induction col as [| c t IH]; simpl; [discriminate|].
  destruct (as_float c); [|reflexivity].
  cbn [andb]. intros H. rewrite (IH H). reflexivity.
Qed.

Lemma floats_some_numeric col fs : floats col = Some fs -> numeric col = true.
Proof.
  intros H. destruct (numeric col) eqn:E; [reflexivity|].
  rewrite (floats_not_numeric _ E) in H. discriminate.
Qed.

Lemma prepared_cell df df' i c s :
  add_NSE_category df = Ok df' ->
  cell_at df SCORE i = Some c -> as_float c = Some s ->
  cell_at df' "NSE" i = Some (CStr (row_label s)).
Proof.
  intros Hok Hc Hs.
  destruct (add_NSE_category_inv _ Hok) as (sc & fs & Hsc & Hfs & Hlen & ->).
  unfold cell_at in Hc. rewrite Hsc in Hc.
  rewrite cell_at_nse, (floats_nth _ _ Hfs Hc Hs). reflexivity.
Qed.

(** X1. The preparation has three outcomes.  Without the score column it
    raises KeyError; with a score column that holds a cell that is not a
    number it raises TypeError; and when it succeeds the score column is
    there, numeric and as long as the index. *)
Theorem preparation_needs_numeric_scores (df : DataFrame) :
  (lookup SCORE (columns df) = None ->
   raises (add_NSE_category df) KeyError) /\
  (forall sc, lookup SCORE (columns df) = Some sc -> numeric sc = false ->
              raises (add_NSE_category df) TypeError) /\
  (forall df', add_NSE_category df = Ok df' ->
     exists sc, getitem df SCORE = Ok sc /\ numeric sc = true /\
                List.length sc = nrows df).
Proof.
  split; [|split].
  - intros H. rewrite add_NSE_category_eq, H. eexists. reflexivity.
  - intros sc H Hn. rewrite add_NSE_category_eq, H.
    rewrite (floats_not_numeric _ Hn). eexists. reflexivity.
  - intros df' Hok.
    destruct (add_NSE_category_inv _ Hok) as (sc & fs & Hsc & Hfs & Hlen & _).
    exists sc. unfold getitem. rewrite Hsc. split; [reflexivity|].
    split; [exact (floats_some_numeric _ Hfs)|].
    rewrite <- (floats_length _ Hfs). exact Hlen.
Qed.

(** X2. The preparation is idempotent: run on its own output it succeeds
    and changes nothing. *)
Theorem preparation_idempotent (df df' : DataFrame) :
  add_NSE_category df = Ok df' -> add_NSE_category df' = Ok df'.
Proof.
  intros Hok.
  destruct (add_NSE_category_inv _ Hok) as (sc & fs & Hsc & Hfs & Hlen & ->).
  rewrite add_NSE_category_eq. cbn [columns nrows set_column].
  rewrite (lookup_replace_other _ _ SCORE_not_NSE), Hsc, Hfs.
  rewrite <- (floats_length _ Hfs), Hlen, Nat.eqb_refl.
  rewrite set_column_twice. reflexivity.
Qed.

Lemma preparation_idempotent_witness :
  exists df',
    add_NSE_category sample_table = Ok df' /\
    add_NSE_category df' = Ok df'.
Proof.
  eexists. split; [reflexivity|].
  exact (@preparation_idempotent sample_table _ eq_refl).
Defined.

(** X3. The upper bounds of the three overwrites never decide anything: the
    label of a row is the one a single cascade of lower bounds gives
    (above 0.8, else above 0.7, else above 0.5, else the default), NaN
    included. *)
Theorem category_is_cascade
    (df df' : DataFrame) (i : nat) (c : cell) (s : spec_float) :
  add_NSE_category df = Ok df' ->
  cell_at df SCORE i = Some c ->
  as_float c = Some s ->
  cell_at df' "NSE" i = Some (CStr (classify s)).
Proof.
  intros Hok Hc Hs. rewrite <- row_label_classify.
  exact (prepared_cell _ _ Hok Hc Hs).
Qed.

Lemma category_is_cascade_witness :
  exists df',
    add_NSE_category sample_table = Ok df' /\
    cell_at df' "NSE" 4 = Some (CStr VERY_GOOD).
Proof.
  eexists. split; [reflexivity|].
  exact (@category_is_cascade sample_table _ 4 (CInt 1) (Float64.of_Z 1)
           eq_refl eq_refl eq_refl).
Defined.

(** X4. The category is monotone in the score: of two rows, the one whose
    score is not smaller never gets the worse category. *)
Theorem category_monotone
    (df df' : DataFrame) (i j : nat) (ci cj : cell) (si sj : spec_float) :
  add_NSE_category df = Ok df' ->
  cell_at df SCORE i = Some ci -> as_float ci = Some si ->
  cell_at df SCORE j = Some cj -> as_float cj = Some sj ->
  Float64.le si sj = true ->
  exists li lj,
    cell_at df' "NSE" i = Some (CStr li) /\
    cell_at df' "NSE" j = Some (CStr lj) /\
    rank li <= rank lj.
Proof.
  intros Hok Hi Hsi Hj Hsj Hle.
  exists (row_label si), (row_label sj).
  split; [exact (prepared_cell _ _ Hok Hi Hsi)|].
  split; [exact (prepared_cell _ _ Hok Hj Hsj)|].
  rewrite !row_label_classify. apply classify_monotone. exact Hle.
Qed.

Lemma category_monotone_witness :
  exists df' li lj,
    add_NSE_category sample_table = Ok df' /\
    cell_at df' "NSE" 0 = Some (CStr li) /\
    cell_at df' "NSE" 2 = Some (CStr lj) /\
    rank li <= rank lj.
Proof.
  destruct (@category_monotone sample_table _ 0 2
              (CFloat Float64.c05) (CFloat Float64.c08)
              Float64.c05 Float64.c08
              eq_refl eq_refl eq_refl eq_refl eq_refl eq_refl)
    as (li & lj & Hi & Hj & Hr).
  eexists. exists li, lj. split; [reflexivity|].
  split; [exact Hi|]. split; [exact Hj | exact Hr].
Defined.

(* ------------------------------------------------------------------ *)
(** ** Line 98: the extraction of the identifier *)

Lemma getitem_int_0 c g : getitem_int c 0 = Ok g <-> first_item c = Some g.
Proof.
  destruct c as [| b | z | x | s | l | d]; simpl;
    try (split; discriminate).
  - destruct s as [| ch s']; simpl; [split; discriminate|].
    split; intros [= <-]; reflexivity.
  - destruct l as [| x t]; simpl; [split; discriminate|].
    split; intros [= <-]; reflexivity.
Qed.

(** X5. Line 98 yields an identifier exactly for a payload that is a
    mapping whose ['points'] is a list, whose first point is a mapping, and
    whose ['customdata'] there has a first item; the identifier is that
    item. *)
Theorem extraction_succeeds_iff (clickData gauge_id : payload) :
  extract_gauge_id clickData = Ok gauge_id <->
  exists d d1 rest c,
    clickData = PDict d /\
    lookup "points" d = Some (PList (PDict d1 :: rest)) /\
    lookup "customdata" d1 = Some c /\
    first_item c = Some gauge_id.
Proof.
  unfold extract_gauge_id. split.
  - destruct clickData as [| b | z | x | s | l | d]; try discriminate.
    cbn [getitem_str bind].
    destruct (lookup "points" d) as [pts|] eqn:Ep; [|discriminate].
    cbn [bind].
    destruct (getitem_int pts 0) as [pt|e] eqn:E0; [|discriminate].
    apply getitem_int_0 in E0. cbn [bind].
    destruct pt as [| b | z | x | s | l | d1]; try discriminate.
    cbn [getitem_str].
    destruct (lookup "customdata" d1) as [c|] eqn:Ec; [|discriminate].
    cbn [bind]. intros H. apply getitem_int_0 in H.
    destruct pts as [| b | z | x | s | l | d']; try discriminate.
    + destruct s as [| ch s']; discriminate.
    + destruct l as [| x t]; [discriminate|]. injection E0 as ->.
      exists d, d1, t, c. auto.
  - intros (d & d1 & rest & c & -> & Hp & Hc & Hf).
    cbn [getitem_str bind]. rewrite Hp. cbn [bind].
    change (getitem_int (PList (PDict d1 :: rest)) 0) with (Ok (PDict d1)).
    cbn [bind getitem_str]. rewrite Hc. cbn [bind].
    apply getitem_int_0. exact Hf.
Qed.

Section MalformedPayload.
Context {X : Externals}.

(** X6. What a truthy payload of the wrong shape does to the handler: a
    payload that is not a mapping raises TypeError, a mapping without
    ['points'] raises KeyError, and a mapping whose ['points'] is an empty
    list raises IndexError; in each case the exception leaves the handler
    and no figure is opened. *)
Theorem malformed_payload_raises
    (results : store) (clickData : payload) (reg : registry) :
  truthy clickData = true ->
  (is_mapping clickData = false ->
   exists e, update_plot results clickData reg = (Raise e, reg) /\
             exn_cls e = TypeError) /\
  (forall d, clickData = PDict d -> lookup "points" d = None ->
   exists e, update_plot results clickData reg = (Raise e, reg) /\
             exn_cls e = KeyError) /\
  (forall d, clickData = PDict d -> lookup "points" d = Some (PList []) ->
   exists e, update_plot results clickData reg = (Raise e, reg) /\
             exn_cls e = IndexError).
Proof.
  intros Ht. split; [|split].
  - intros Hm.
    destruct clickData as [| b | z | x | s | l | d]; try discriminate;
      eexists; (split; [apply (update_plot_extraction_fails _ _ _ Ht);
                        reflexivity | reflexivity]).
  - intros d -> Hp. eexists. split.
    + apply (update_plot_extraction_fails _ _ _ Ht).
      unfold extract_gauge_id. cbn [getitem_str]. rewrite Hp. reflexivity.
    + reflexivity.
  - intros d -> Hp. eexists. split.
    + apply (update_plot_extraction_fails _ _ _ Ht).
      unfold extract_gauge_id. cbn [getitem_str]. rewrite Hp. reflexivity.
    + reflexivity.
Qed.

End MalformedPayload.

Lemma malformed_payload_raises_witness :
  exists e,
    @update_plot toy_externals sample_results (PList [PInt 1]) []
    = (Raise e, []) /\
    exn_cls e = TypeError.
Proof.
  exact (proj1 (@malformed_payload_raises toy_externals sample_results
                  (PList [PInt 1]) [] eq_refl) eq_refl).
Defined.

(* ------------------------------------------------------------------ *)
(** ** The figures the handler opens *)

Lemma DataFrame_of_arrays_columns a b c (x y z : xvar) df :
  DataFrame_of_arrays [(a, x); (b, y); (c, z)] = Ok df ->
  exists n ca cb cc, df = Frame n [(a, ca); (b, cb); (c, cc)].
Proof.
  unfold DataFrame_of_arrays.
  destruct (raw_lengths _) as [[| n rest]|e]; cbn [bind]; try discriminate.
  destruct (forallb (Nat.eqb n) rest); [|discriminate].
  cbn [mapM snd fst].
  destruct (frame_column n x) as [ca|e]; [|discriminate].
  destruct (frame_column n y) as [cb|e]; [|discriminate].
  destruct (frame_column n z) as [cc|e]; [|discriminate].
  cbn [bind]. intros [= <-]. exists n, ca, cb, cc. reflexivity.
Qed.

(** The table of the chart always has the three columns the drawing reads,
    in this order. *)
Lemma chart_table_columns results gauge_id df :
  chart_table results gauge_id = Ok df ->
  exists n d o s,
    df = Frame n [("date", d);
                  ("Observed Flow (mm/d)", o);
                  ("Simulated Flow (mm/d)", s)].
Proof.
  unfold chart_table.
  destruct (results_getitem results gauge_id); [|discriminate]. cbn [bind].
  destruct (dict_getitem _ "1D"); [|discriminate]. cbn [bind].
  destruct (dict_getitem _ "xr"); [|discriminate]. cbn [bind].
  destruct (item_getitem _ "flow_mm_d_obs"); [|discriminate]. cbn [bind].
  destruct (isel_last "time_step" _); [|discriminate]. cbn [bind].
  destruct (item_getitem _ "flow_mm_d_sim"); [|discriminate]. cbn [bind].
  destruct (isel_last "time_step" _); [|discriminate]. cbn [bind].
  destruct (da_getitem _ "date"); [|discriminate]. cbn [bind].
  apply DataFrame_of_arrays_columns.
Qed.

Section Figures.
Context {X : Externals}.

Lemma plot_gauge_eq results gauge_id reg :
  plot_gauge results gauge_id reg
  = match chart_table results gauge_id with
    | Ok df => draw_chart gauge_id df reg
    | Raise e => (Raise e, reg)
    end.
Proof. unfold plot_gauge. apply mbind_lift. Qed.

(** Drawing the chart of a table with the three columns: the image and the
    registry as it was, or the exception of the drawing and the figure
    still open. *)
Lemma draw_chart_three_columns gauge_id n d o s reg :
  draw_chart gauge_id
    (Frame n [("date", d);
              ("Observed Flow (mm/d)", o);
              ("Simulated Flow (mm/d)", s)]) reg
  = match png_stream (chart_of gauge_id d o s) with
    | Ok body =>
        (Ok (Img ("data:image/png;base64,"
                  ++ Base64.b64encode (png_signature ++ body))%string), reg)
    | Raise e =>
        (Raise e, reg ++ [(next_num reg, chart_of gauge_id d o s)])
    end.
Proof.
  pose proof (next_num_fresh reg) as Hn.
  unfold draw_chart, chart_of.
  unfold mbind at 1. unfold subplots at 1, new_figure.
  change (getitem _ "date") with (Ok (A:=list cell) d).
  change (getitem _ "Observed Flow (mm/d)") with (Ok (A:=list cell) o).
  change (getitem _ "Simulated Flow (mm/d)") with (Ok (A:=list cell) s).
  rewrite !mbind_lift.
  rewrite (@mbind_step _ _ _ _ _ _ _
             (@ax_plot_last _ _ Hn _ _ _ _ _ _ _ _ _ _ _ _)).
  rewrite !mbind_lift.
  rewrite (@mbind_step _ _ _ _ _ _ _
             (@ax_plot_last _ _ Hn _ _ _ _ _ _ _ _ _ _ _ _)).
  rewrite (@mbind_step _ _ _ _ _ _ _
             (@ax_set_title_last _ _ Hn _ _ _ _ _ _ _ _)).
  rewrite (@mbind_step _ _ _ _ _ _ _
             (@ax_set_xlabel_last _ _ Hn _ _ _ _ _ _ _ _)).
  rewrite (@mbind_step _ _ _ _ _ _ _
             (@ax_set_ylabel_last _ _ Hn _ _ _ _ _ _ _ _)).
  rewrite (@mbind_step _ _ _ _ _ _ _
             (@ax_legend_last _ _ Hn _ _ _ _ _ _ _)).
  rewrite (@mbind_step _ _ _ _ _ _ _
             (@tight_layout_last _ _ Hn _ _ _ _ _ _ _)).
  unfold mbind at 1. rewrite savefig_last. cbn [app].
  destruct (png_stream _) as [body|e]; [|reflexivity].
  rewrite (@mbind_step _ _ _ _ _ _ _ (@close_last _ _ _ Hn)).
  reflexivity.
Qed.

(** X7. The handler opens at most one figure and closes it again when it
    returns the image.  The figure stays open exactly when the table of the
    chart was built and drawing it raised: then the handler returns the
    error text and the registry has one figure more, the chart. *)
Theorem figure_stays_open_only_when_drawing_fails
    (results : store) (clickData : payload) (reg : registry) :
  (forall src,
     fst (update_plot results clickData reg) = Ok (Img src) ->
     snd (update_plot results clickData reg) = reg) /\
  (forall gauge_id e,
     extract_gauge_id clickData = Ok gauge_id ->
     chart_table results gauge_id = Raise e ->
     update_plot results clickData reg
     = (Ok (Div (error_text gauge_id e)), reg)) /\
  (forall gauge_id n d o s e,
     extract_gauge_id clickData = Ok gauge_id ->
     chart_table results gauge_id
     = Ok (Frame n [("date", d);
                    ("Observed Flow (mm/d)", o);
                    ("Simulated Flow (mm/d)", s)]) ->
     png_stream (chart_of gauge_id d o s) = Raise e ->
     update_plot results clickData reg
     = (Ok (Div (error_text gauge_id e)),
        reg ++ [(next_num reg, chart_of gauge_id d o s)])).
Proof.
  split; [|split].
  - intros src Hsrc.
    destruct (truthy clickData) eqn:Ht;
      [|rewrite (update_plot_falsy _ _ _ Ht) in Hsrc; discriminate].
    destruct (extract_gauge_id clickData) as [g|e] eqn:He;
      [|rewrite (update_plot_extraction_fails _ _ _ Ht He) in Hsrc;
        discriminate].
    rewrite (update_plot_extracted _ _ _ Ht He) in *.
    rewrite try_except_fst in Hsrc. rewrite try_except_snd.
    rewrite plot_gauge_fst in Hsrc.
    destruct (plot_result results g) as [frag|e] eqn:Ep; [|discriminate].
    apply plot_gauge_snd. eauto.
  - intros g e He Hc. pose proof (extracted_truthy _ He) as Ht.
    rewrite (update_plot_extracted _ _ _ Ht He).
    unfold try_except. rewrite plot_gauge_eq, Hc. reflexivity.
  - intros g n d o s e He Hc Hp. pose proof (extracted_truthy _ He) as Ht.
    rewrite (update_plot_extracted _ _ _ Ht He).
    unfold try_except.
    rewrite plot_gauge_eq, Hc, draw_chart_three_columns, Hp. reflexivity.
Qed.

End Figures.

Lemma figure_stays_open_only_when_drawing_fails_witness :
  @update_plot failing_renderer sample_results (click (PStr "01013500")) []
  = (Ok (Div "Error loading streamflow for gauge 01013500: savefig"),
     [(1, @chart_of failing_renderer (PStr "01013500")
            [CDate 0; CDate 86400000000000]
            [CFloat Float64.c05; CFloat Float64.c07]
            [CFloat Float64.c07; CFloat Float64.c08])]).
Proof.
  exact (proj2 (proj2 (@figure_stays_open_only_when_drawing_fails
                         failing_renderer sample_results
                         (click (PStr "01013500")) []))
           (PStr "01013500") 2 _ _ _ _ eq_refl eq_refl eq_refl).
Defined.

(* ------------------------------------------------------------------ *)
(** ** The data URI of the image *)

Lemma list_ind3 {A} (P : list A -> Prop) :
  P [] -> (forall a, P [a]) -> (forall a b, P [a; b]) ->
  (forall a b c r, P r -> P (a :: b :: c :: r)) ->
  forall l, P l.
Proof.
  intros H0 H1 H2 H3.
  assert (H : forall n l, List.length l <= n -> P l).
  { induction n as [| n IH]; intros l Hl.
    - destruct l; [exact H0 | simpl in Hl; lia].
    - destruct l as [| a [| b [| c r]]]; auto.
      apply H3. apply IH. simpl in Hl. lia. }
  intros l. apply (H (List.length l)). lia.
Qed.

(** Four characters for every three bytes, the last group padded. *)
Lemma b64encode_length bs :
  String.length (Base64.b64encode bs) = 4 * ((List.length bs + 2) / 3).
Proof.
  induction bs as [| a | a b | a b c r IH] using list_ind3;
    try reflexivity.
  change (String.length (Base64.b64encode (a :: b :: c :: r)))
    with (4 + String.length (Base64.b64encode r)).
  rewrite IH.
  change (List.length (a :: b :: c :: r) + 2)
    with (3 + (List.length r + 2)).
  replace (3 + (List.length r + 2)) with ((List.length r + 2) + 1 * 3) by lia.
  rewrite Nat.div_add by discriminate. lia.
Qed.

Lemma b64encode_png_prefix body :
  exists rest,
    Base64.b64encode (png_signature ++ body) = ("iVBORw0KGg" ++ rest)%string.
Proof.
  destruct body as [| c r]; eexists; reflexivity.
Qed.

Section DataURI.
Context {X : Externals}.

Lemma plot_result_src results gauge_id frag :
  plot_result results gauge_id = Ok frag ->
  exists body,
    frag = Img ("data:image/png;base64,"
                ++ Base64.b64encode (png_signature ++ body))%string.
Proof.
  unfold plot_result.
  destruct (chart_table results gauge_id) as [df|e']; [|discriminate].
  unfold draw_result. cbn [bind].
  destruct (getitem df "date"); [|discriminate].
  destruct (getitem df "Observed Flow (mm/d)"); [|discriminate].
  destruct (getitem df "Simulated Flow (mm/d)"); [|discriminate].
  cbn [bind]. destruct (png_stream _) as [body|e]; [|discriminate].
  cbn [bind]. intros [= <-]. exists body. reflexivity.
Qed.

(** X8. Whenever the handler returns an image, its source is a data URI of
    type image/png whose base64 payload starts with the encoding of the PNG
    signature and is a whole number of four-character groups, at least
    three of them. *)
Theorem image_is_png_data_uri
    (results : store) (clickData : payload) (reg : registry) (src : string) :
  fst (update_plot results clickData reg) = Ok (Img src) ->
  exists payload rest k,
    src = ("data:image/png;base64," ++ payload)%string /\
    payload = ("iVBORw0KGg" ++ rest)%string /\
    String.length payload = 4 * k /\ 3 <= k.
Proof.
  rewrite update_plot_fst.
  destruct (negb (truthy clickData)); [discriminate|].
  destruct (extract_gauge_id clickData) as [g|e]; [|discriminate].
  destruct (plot_result results g) as [frag|e] eqn:Ep; [|discriminate].
  intros [= ->]. destruct (plot_result_src _ _ Ep) as [body [= ->]].
  destruct (b64encode_png_prefix body) as [rest Hrest].
  exists (Base64.b64encode (png_signature ++ body)), rest,
    ((List.length (png_signature ++ body) + 2) / 3).
  split; [reflexivity|]. split; [exact Hrest|].
  split; [apply b64encode_length|].
  rewrite length_app. change (List.length png_signature) with 8.
  apply (Nat.div_le_lower_bound _ 3 3); lia.
Qed.

End DataURI.

Lemma image_is_png_data_uri_witness :
  exists payload rest k,
    "data:image/png;base64,iVBORw0KGgoA"
    = ("data:image/png;base64," ++ payload)%string /\
    payload = ("iVBORw0KGg" ++ rest)%string /\
    String.length payload = 4 * k /\ 3 <= k.
Proof.
  exact (@image_is_png_data_uri toy_externals sample_results
           (click (PStr "01013500")) [] _ eq_refl).
Defined.

(* ------------------------------------------------------------------ *)
(** ** Groups of rows *)

Lemma sf_eqb_refl x : sf_eqb x x = true.
Proof.
  destruct x as [a | a | | a m e]; simpl; auto using Bool.eqb_reflx.
  rewrite Bool.eqb_reflx, Pos.eqb_refl, Z.eqb_refl. reflexivity.
Qed.

Lemma cell_eqb_refl a : cell_eqb a a = true.
Proof.
  destruct a; simpl; auto using sf_eqb_refl, Z.eqb_refl, String.eqb_refl.
Qed.

Lemma add_to_group_key_in k p gs x :
  In x (map fst (add_to_group k p gs)) -> x = k \/ In x (map fst gs).
Proof.
  induction gs as [| [k' ps] t IH]; simpl.
  - intros [<- | []]. auto.
  - destruct (cell_eqb k' k); simpl; intros [<- | H]; auto.
    destruct (IH H); auto.
Qed.

Lemma add_to_group_NoDup k p gs :
  NoDup (map fst gs) -> NoDup (map fst (add_to_group k p gs)).
Proof.
  induction gs as [| [k' ps] t IH]; simpl; intros H.
  - repeat constructor. simpl. tauto.
  - destruct (cell_eqb k' k) eqn:E; simpl; [exact H|].
    inversion H as [| ? ? Hnin Ht]; subst. constructor; [|auto].
    intros Hin. apply add_to_group_key_in in Hin as [-> | Hin]; [|tauto].
    rewrite cell_eqb_refl in E. discriminate.
Qed.

Lemma add_to_group_nonempty k p gs :
  Forall (fun g => snd g <> []) gs ->
  Forall (fun g => snd g <> []) (add_to_group k p gs).
Proof.
  induction 1 as [| [k' ps] t Hp Ht IH]; simpl.
  - repeat constructor. simpl. discriminate.
  - destruct (cell_eqb k' k); constructor; auto.
    simpl. intros H. apply app_eq_nil in H as [_ H]. discriminate.
Qed.

Lemma group_rows_distinct_nonempty rows :
  NoDup (map fst (group_rows rows)) /\
  Forall (fun g => snd g <> []) (group_rows rows).
Proof.
  unfold group_rows.
  assert (H : forall gs,
             NoDup (map fst gs) /\ Forall (fun g => snd g <> []) gs ->
             NoDup (map fst (fold_left
                       (fun gs r => add_to_group (fst r) (snd r) gs) rows gs))
             /\ Forall (fun g => snd g <> [])
                  (fold_left
                     (fun gs r => add_to_group (fst r) (snd r) gs) rows gs)).
  { induction rows as [| r t IH]; intros gs [H1 H2]; simpl; [auto|].
    apply IH. split;
      [apply add_to_group_NoDup | apply add_to_group_nonempty]; assumption. }
  apply H. split; constructor.
Qed.

(* ------------------------------------------------------------------ *)
(** ** The map of a prepared table *)

Lemma prepared_rows_labelled df lat_c lon_c fs hover :
  List.length fs = nrows df ->
  Forall (fun r => exists lab, fst r = CStr lab /\ In lab labels)
         (px_rows df lat_c lon_c (nse_column fs) hover).
Proof.
  intros Hlen. apply Forall_forall. intros r Hr. unfold px_rows in Hr.
  apply in_map_iff in Hr as (i & <- & Hi). apply in_seq in Hi. cbn [fst].
  destruct (@nse_column_nth fs i) as (s & _ & Hs); [lia|].
  exists (row_label s). split; [exact Hs | apply row_label_in_labels].
Qed.

(** The figure of a prepared table, whatever the colour sequence: one
    trace per category that occurs, or the single empty trace of an empty
    table; an error when a column of the map is missing. *)
Lemma fig_prepared sequence df sc fs :
  lookup SCORE (columns df) = Some sc ->
  List.length fs = nrows df ->
  fig sequence (set_column df "NSE" (nse_column fs))
  = match lookup "lat" (columns df), lookup "long" (columns df),
          lookup "gauge_id" (columns df) with
    | Some lat_c, Some lon_c, Some gid_c =>
        Ok (update_traces_marker_size 10
              (MkFigure
                 (match fs with
                  | [] => [Trace None (ColourAxis []) None []]
                  | _ => map category_trace
                           (group_rows
                              (px_rows df lat_c lon_c (nse_column fs)
                                       [gid_c; sc]))
                  end) 3))
    | _, _, _ => Raise (Exn ValueError "px: not the name of a column")
    end.
Proof.
  intros Hsc Hlen. unfold fig, scatter_mapbox, px_column.
  cbn [columns set_column mapM]. unfold px_column.
  cbn [columns set_column].
  rewrite lookup_replace_same.
  rewrite !lookup_replace_other by discriminate.
  rewrite Hsc.
  destruct (lookup "lat" (columns df)) as [lat_c|]; [|reflexivity].
  destruct (lookup "long" (columns df)) as [lon_c|]; [|reflexivity].
  destruct (lookup "gauge_id" (columns df)) as [gid_c|]; [|reflexivity].
  cbn [bind].
  change (px_rows (set_column df "NSE" (nse_column fs)))
    with (px_rows df).
  destruct fs as [| s fs'].
  - unfold px_rows. rewrite <- Hlen. reflexivity.
  - change (numeric (nse_column (s :: fs'))) with false. cbv iota.
    rewrite (@discrete_traces_mapped _ _ mapped_colour).
    + reflexivity.
    + apply (@group_rows_keys
               (fun k => val_lookup k _ = Some (mapped_colour k))).
      generalize (@prepared_rows_labelled df lat_c lon_c (s :: fs')
                    [gid_c; sc] Hlen).
      apply Forall_impl.
      intros r (lab & -> & Hin). apply (label_is_mapped Hin).
Qed.

(** X9. The map of a prepared table does not depend on the template's
    colour sequence, which is never consulted, and it can be built exactly
    when the table has the columns ['lat'], ['long'] and ['gauge_id'];
    otherwise plotly express raises ValueError. *)
Theorem map_needs_three_columns
    (sequence sequence' : list string) (df df' : DataFrame) :
  add_NSE_category df = Ok df' ->
  fig sequence df' = fig sequence' df' /\
  ((exists f, fig sequence df' = Ok f) <->
   Forall (fun c => lookup c (columns df) <> None) MAP_COLUMNS) /\
  ((forall f, fig sequence df' <> Ok f) ->
   raises (fig sequence df') ValueError).
Proof.
  intros Hok.
  destruct (add_NSE_category_inv _ Hok) as (sc & fs & Hsc & Hfs & Hlen & ->).
  rewrite !(fig_prepared _ _ _ Hsc Hlen).
  split; [reflexivity|]. unfold MAP_COLUMNS.
  destruct (lookup "lat" (columns df)) as [lat_c|] eqn:E1;
    [destruct (lookup "long" (columns df)) as [lon_c|] eqn:E2;
     [destruct (lookup "gauge_id" (columns df)) as [gid_c|] eqn:E3|]|].
  - split.
    + split; [|eauto]. intros _.
      repeat (constructor; [congruence|]). constructor.
    + intros H. exfalso. eapply H. reflexivity.
  - split; [split; [intros [f H]; discriminate|]|].
    + intros H. rewrite Forall_forall in H. exfalso.
      apply (H "gauge_id"); simpl; auto.
    + intros _. eexists. reflexivity.
  - split; [split; [intros [f H]; discriminate|]|].
    + intros H. rewrite Forall_forall in H. exfalso.
      apply (H "long"); simpl; auto.
    + intros _. eexists. reflexivity.
  - split; [split; [intros [f H]; discriminate|]|].
    + intros H. rewrite Forall_forall in H. exfalso.
      apply (H "lat"); simpl; auto.
    + intros _. eexists. reflexivity.
Qed.

Lemma map_needs_three_columns_witness :
  exists df',
    add_NSE_category sample_table = Ok df' /\
    fig [] df' = fig plotly_colorway df' /\
    raises (fig [] df') ValueError.
Proof.
  eexists. split; [reflexivity|].
  destruct (@map_needs_three_columns [] plotly_colorway sample_table _
              eq_refl) as (Hsame & _ & Hfail).
  split; [exact Hsame|]. apply Hfail. intros f. discriminate.
Defined.

Lemma NoDup_map_Some {A} (l : list A) : NoDup l -> NoDup (map Some l).
Proof.
  induction 1 as [| x l Hx Hl IH]; simpl; constructor; [|exact IH].
  intros Hin. apply in_map_iff in Hin as (y & [= ->] & Hy). tauto.
Qed.

(** X10. The map of a prepared table with at least one row has one trace
    per category that occurs: the traces carry pairwise different
    categories, so there are at most four; each holds at least one point,
    has marker size 10 and is drawn in the colour of its category. *)
Theorem one_trace_per_category
    (sequence : list string) (df df' : DataFrame) (f : Figure) :
  add_NSE_category df = Ok df' ->
  fig sequence df' = Ok f ->
  0 < nrows df ->
  NoDup (map name (data f)) /\
  List.length (data f) <= 4 /\
  Forall (fun t =>
            points t <> [] /\ size t = Some 10 /\
            exists lab c,
              name t = Some (CStr lab) /\ In lab labels /\
              category_colour lab = Some c /\ color t = Fixed c)
         (data f).
Proof.
  intros Hok Hfig Hpos.
  destruct (add_NSE_category_inv _ Hok) as (sc & fs & Hsc & Hfs & Hlen & ->).
  rewrite (fig_prepared _ _ _ Hsc Hlen) in Hfig.
  destruct (lookup "lat" (columns df)) as [lat_c|]; [|discriminate].
  destruct (lookup "long" (columns df)) as [lon_c|]; [|discriminate].
  destruct (lookup "gauge_id" (columns df)) as [gid_c|]; [|discriminate].
  destruct fs as [| s0 fs']; [simpl in Hlen; lia|].
  injection Hfig as <-.
  set (rows := px_rows df lat_c lon_c (nse_column (s0 :: fs')) [gid_c; sc]).
  destruct (group_rows_distinct_nonempty rows) as [Hnd Hne].
  assert (Hkeys : Forall (fun g => exists lab,
                            fst g = CStr lab /\ In lab labels)
                         (group_rows rows)).
  { apply (@group_rows_keys
             (fun k => exists lab, k = CStr lab /\ In lab labels)).
    apply prepared_rows_labelled. exact Hlen. }
  unfold update_traces_marker_size. cbn [data]. rewrite !map_map.
  cbn [name category_trace]. split; [|split].
  - rewrite <- (map_map fst Some).
    apply NoDup_map_Some. exact Hnd.
  - rewrite length_map, <- (length_map fst).
    change 4 with (List.length (map CStr labels)).
    apply NoDup_incl_length; [exact Hnd|].
    intros k Hk. apply in_map_iff in Hk as (g & <- & Hg).
    rewrite Forall_forall in Hkeys.
    destruct (Hkeys g Hg) as (lab & -> & Hin). apply in_map. exact Hin.
  - apply Forall_forall. intros t Ht.
    apply in_map_iff in Ht as (g & <- & Hg).
    rewrite Forall_forall in Hne, Hkeys.
    pose proof (Hne g Hg) as Hps.
    destruct (Hkeys g Hg) as (lab & E & Hin).
    destruct g as [k ps]. cbn [fst snd] in *. subst k.
    cbn [points size name color category_trace fst snd].
    split; [exact Hps|]. split; [reflexivity|].
    exists lab, (mapped_colour (CStr lab)).
    split; [reflexivity|]. split; [exact Hin|].
    split; [apply (label_is_mapped Hin) | reflexivity].
Qed.

Lemma one_trace_per_category_witness :
  exists df' f,
    add_NSE_category sample_map_table = Ok df' /\
    fig plotly_colorway df' = Ok f /\
    NoDup (map name (data f)) /\ List.length (data f) <= 4.
Proof.
  eexists. eexists. split; [reflexivity|]. split; [reflexivity|].
  destruct (@one_trace_per_category plotly_colorway sample_map_table _ _
              eq_refl eq_refl (Nat.lt_0_succ 2)) as (Hnd & Hlen & _).
  split; [exact Hnd | exact Hlen].
Defined.

(* ------------------------------------------------------------------ *)
(** ** Failures of the lookup in the store *)

Lemma dim_position_has_dim d v kn :
  dim_position d (dims v) = Some kn -> has_dim d v = true.
Proof.
  unfold has_dim. revert kn. induction (dims v) as [| [m sz] t IH];
    simpl; intros kn H; [discriminate|].
  destruct (String.eqb m d); [reflexivity|]. simpl.
  destruct (dim_position d t) as [kn'|]; [|discriminate].
  eapply IH. reflexivity.
Qed.

Section LookupFailures.
Context {X : Externals}.

Lemma update_plot_table_fails results clickData gauge_id e reg :
  extract_gauge_id clickData = Ok gauge_id ->
  chart_table results gauge_id = Raise e ->
  update_plot results clickData reg
  = (Ok (Div (error_text gauge_id e)), reg).
Proof.
  intros He Hc. pose proof (extracted_truthy _ He) as Ht.
  rewrite (update_plot_extracted _ _ _ Ht He).
  unfold try_except, plot_gauge. rewrite mbind_lift, Hc. reflexivity.
Qed.

(** X11. A station that is in the store without the daily resolution, or
    whose daily resolution has no dataset, gives the error text of a
    KeyError; one whose ['xr'] entry is a number gives that of a TypeError.
    No figure is opened. *)
Theorem incomplete_station_gives_error
    (results : store) (clickData gauge_id : payload) (k : key)
    (station : list (string * list (string * item))) (reg : registry) :
  extract_gauge_id clickData = Ok gauge_id ->
  station_key gauge_id = Some k ->
  key_lookup k results = Some station ->
  (lookup "1D" station = None ->
   exists e, exn_cls e = KeyError /\
             update_plot results clickData reg
             = (Ok (Div (error_text gauge_id e)), reg)) /\
  (forall daily, lookup "1D" station = Some daily ->
     lookup "xr" daily = None ->
     exists e, exn_cls e = KeyError /\
               update_plot results clickData reg
               = (Ok (Div (error_text gauge_id e)), reg)) /\
  (forall daily x, lookup "1D" station = Some daily ->
     lookup "xr" daily = Some (INumber x) ->
     exists e, exn_cls e = TypeError /\
               update_plot results clickData reg
               = (Ok (Div (error_text gauge_id e)), reg)).
Proof.
  intros He Hk Hl.
  pose proof (results_getitem_found _ _ Hk Hl) as Hst.
  split; [|split].
  - intros H1. eexists. split; [|apply (@update_plot_table_fails _ _ _ _ _ He)].
    2:{ unfold chart_table. rewrite Hst. cbn [bind].
        unfold dict_getitem. rewrite H1. reflexivity. }
    reflexivity.
  - intros daily H1 Hx. eexists.
    split; [|apply (@update_plot_table_fails _ _ _ _ _ He)].
    2:{ unfold chart_table. rewrite Hst. cbn [bind].
        unfold dict_getitem. rewrite H1. cbn [bind]. rewrite Hx.
        reflexivity. }
    reflexivity.
  - intros daily x H1 Hx. eexists.
    split; [|apply (@update_plot_table_fails _ _ _ _ _ He)].
    2:{ unfold chart_table. rewrite Hst. cbn [bind].
        unfold dict_getitem. rewrite H1. cbn [bind]. rewrite Hx.
        reflexivity. }
    reflexivity.
Qed.

(** X12. The edge of the time axis.  When the observed flow of the dataset
    has no dimension called time_step the handler gives the error text of a
    ValueError, and when that dimension has size 0 the text of an
    IndexError: [isel(time_step=-1)] needs at least one time step. *)
Theorem time_step_axis_is_required
    (results : store) (clickData gauge_id : payload) (k : key)
    (station : list (string * list (string * item)))
    (daily : list (string * item)) (ds : Dataset) (obs : DataArray)
    (reg : registry) :
  extract_gauge_id clickData = Ok gauge_id ->
  station_key gauge_id = Some k ->
  key_lookup k results = Some station ->
  lookup "1D" station = Some daily ->
  lookup "xr" daily = Some (IDataset ds) ->
  ds_getitem ds "flow_mm_d_obs" = Ok obs ->
  (has_dim "time_step" (variable obs) = false ->
   exists e, exn_cls e = ValueError /\
             update_plot results clickData reg
             = (Ok (Div (error_text gauge_id e)), reg)) /\
  (forall pos, dim_position "time_step" (dims (variable obs)) = Some (pos, 0) ->
   exists e, exn_cls e = IndexError /\
             update_plot results clickData reg
             = (Ok (Div (error_text gauge_id e)), reg)).
Proof.
  intros He Hk Hl H1 Hx Hobs.
  pose proof (results_getitem_found _ _ Hk Hl) as Hst.
  assert (Hpre : forall r,
             isel_last "time_step" obs = Raise r ->
             chart_table results gauge_id = Raise r).
  { intros r Hr. unfold chart_table. rewrite Hst. cbn [bind].
    unfold dict_getitem. rewrite H1. cbn [bind]. rewrite Hx. cbn [bind].
    unfold item_getitem. rewrite Hobs. cbn [bind]. rewrite Hr.
    reflexivity. }
  split.
  - intros Hd. eexists. split; [|apply (@update_plot_table_fails _ _ _ _ _ He)].
    2:{ apply Hpre. unfold isel_last. rewrite Hd. reflexivity. }
    reflexivity.
  - intros pos Hp. eexists.
    split; [|apply (@update_plot_table_fails _ _ _ _ _ He)].
    2:{ apply Hpre. unfold isel_last.
        rewrite (dim_position_has_dim _ _ Hp).
        unfold var_isel_last. rewrite Hp. reflexivity. }
    reflexivity.
Qed.

End LookupFailures.

Lemma incomplete_station_gives_error_witness :
  exists e,
    exn_cls e = KeyError /\
    @update_plot toy_externals broken_results (click (PStr "a")) []
    = (Ok (Div (@error_text toy_externals (PStr "a") e)), []).
Proof.
  exact (proj1 (@incomplete_station_gives_error toy_externals broken_results
                  (click (PStr "a")) (PStr "a") (KStr "a") [] []
                  eq_refl eq_refl eq_refl) eq_refl).
Defined.

Lemma time_step_axis_is_required_witness :
  exists e,
    exn_cls e = IndexError /\
    @update_plot toy_externals broken_results (click (PStr "d")) []
    = (Ok (Div (@error_text toy_externals (PStr "d") e)), []).
Proof.
  exact (proj2 (@time_step_axis_is_required toy_externals broken_results
                  (click (PStr "d")) (PStr "d") (KStr "d")
                  (station_with no_steps) [("xr", IDataset no_steps)]
                  no_steps _ []
                  eq_refl eq_refl eq_refl eq_refl eq_refl eq_refl)
           1 eq_refl).
Defined.

(* ------------------------------------------------------------------ *)
(** ** Start-up *)

Lemma lookup_in_names {A} name (cols : list (string * A)) v :
  lookup name cols = Some v -> In name (map fst cols).
Proof.
  induction cols as [| [n c] t IH]; simpl; [discriminate|].
  destruct (String.eqb n name) eqn:E; [|auto].
  apply String.eqb_eq in E. auto.
Qed.

(** X13. Start-up reads two pairs of coordinate columns: the map is drawn
    from ['lat'] and ['long'], its centre is computed from ['latitude'] and
    ['longitude'].  It can only succeed on a table that has all of them
    besides ['gauge_id'] and the score; the prepared table it returns is
    the loaded one plus the category. *)
Theorem startup_needs_both_coordinate_pairs
    (series_mean : list cell -> result spec_float) (sequence : list string)
    (loaded merged_df : DataFrame) (f : Figure)
    (center : spec_float * spec_float) :
  startup series_mean sequence loaded = Ok (merged_df, f, center) ->
  Forall (fun c => In c (column_names loaded)) STARTUP_COLUMNS /\
  add_NSE_category loaded = Ok merged_df /\
  fig sequence merged_df = Ok f.
Proof.
  unfold startup.
  destruct (add_NSE_category loaded) as [df|e] eqn:Hok; [|discriminate].
  cbn [bind].
  destruct (fig sequence df) as [f0|e] eqn:Hfig; [|discriminate].
  cbn [bind]. unfold mapbox_center, getitem.
  destruct (lookup "latitude" (columns df)) as [la|] eqn:Ela;
    [|discriminate]. cbn [bind].
  destruct (series_mean la); [|discriminate]. cbn [bind].
  destruct (lookup "longitude" (columns df)) as [lo|] eqn:Elo;
    [|discriminate]. cbn [bind].
  destruct (series_mean lo); [|discriminate]. cbn [bind].
  intros [= <- <- <-]. split; [|split; [reflexivity | exact Hfig]].
  destruct (add_NSE_category_inv _ Hok) as (sc & fs & Hsc & Hfs & Hlen & ->).
  rewrite (fig_prepared _ _ _ Hsc Hlen) in Hfig.
  cbn [columns set_column] in Ela, Elo.
  rewrite lookup_replace_other in Ela, Elo by discriminate.
  destruct (lookup "lat" (columns loaded)) eqn:E1; [|discriminate].
  destruct (lookup "long" (columns loaded)) eqn:E2; [|discriminate].
  destruct (lookup "gauge_id" (columns loaded)) eqn:E3; [|discriminate].
  unfold STARTUP_COLUMNS, column_names.
  repeat (constructor; [eapply lookup_in_names; eassumption|]).
  constructor.
Qed.

Lemma startup_needs_both_coordinate_pairs_witness :
  exists merged_df f center,
    startup toy_mean plotly_colorway full_table = Ok (merged_df, f, center) /\
    Forall (fun c => In c (column_names full_table)) STARTUP_COLUMNS.
Proof.
  eexists. eexists. eexists. split; [reflexivity|].
  exact (proj1 (@startup_needs_both_coordinate_pairs toy_mean
                  plotly_colorway full_table _ _ _ eq_refl)).
Defined.

(* ------------------------------------------------------------------ *)
(** ** The state the handler leaves behind *)

